(** * Taskwarrior <-> Reminders sync: a shallow embedding of the reconciliation
      engine (tw_reminders) and the properties of its specification.

    Layout: the embedding comes first, one module per source file
    (config.py, sync_state.py, sync_from_reminders.py, hooks/on_add.py,
    hooks/on_modify.py); the theorems follow.

    Conventions of the embedding.
    - Python [str] is [string]: UTF-8 bytes.  Python orders strings by code
      point, and byte-wise order on UTF-8 is the same order, so [String.leb]
      is Python's [<=] on [str].
    - A Python [dict] whose iteration order is observable (the mapping table,
      scanned by [get_by_reminder_id]) is an association list in insertion
      order, with [dict_set], [dict_del] and [dict_get] as [d[k] = v],
      [del d[k]] and [d.get(k)].
    - A dict read with [d["k"]] has [k] as a plain record field; a dict read
      with [d.get("k")] has it as an [option] field ([None]: key absent).
    - An exception is a [Raise] result; the [try ... except] of the source is
      a [match] on it.
    - The local store (tasklib's [TaskWarrior]) and the remote agent (the
      Swift binary) are outside the repository: the store is a finite map
      from uuid to task with a journal of the commands sent to it, and each
      agent invocation is an input giving how the call ended.
    - A tasklib [Task] read from the store is an object with two copies of
      its fields, [_data] (what [task[key] = value] changes) and
      [_original_data] (what was read); [save] sends the fields in which the
      two differ, and nothing when none does; [done] makes the values at
      hand the original ones, so that edits made before it are never
      sent. *)

From Stdlib Require Import String Ascii ZArith List Bool.
From stdpp Require Import gmap strings list.

Open Scope string_scope.

(** ** Python results and values *)

Inductive exn :=
| JSONDecodeError
| TypeError
| AttributeError    (* tasklib: a dict where a TaskAnnotation is expected *)
| DoesNotExist      (* tasklib: Task.DoesNotExist *)
| CompletedTask     (* tasklib: Task.CompletedTask *)
| DeletedTask.      (* tasklib: Task.DeletedTask *)

Inductive Res (A : Type) :=
| Ok (a : A)
| Raise (e : exn).
Arguments Ok {A} a.
Arguments Raise {A} e.

(** [bool(s)] for a [str], and for the result of [d.get(k)]. *)
Definition truthy_str (s : string) : bool := bool_decide (s ≠ "").

Definition truthy_get (o : option string) : bool :=
  match o with Some s => truthy_str s | None => false end.

Definition truthy_flag (o : option bool) : bool :=
  match o with Some b => b | None => false end.

(** [needle in hay] for two [str]. *)
Fixpoint str_contains (needle hay : string) : bool :=
  String.prefix needle hay ||
  match hay with
  | EmptyString => false
  | String _ rest => str_contains needle rest
  end.

(** ** Association lists as insertion-ordered dicts *)

Section Dict.
Context {V : Type}.

Fixpoint dict_get (k : string) (d : list (string * V)) : option V :=
  match d with
  | [] => None
  | (k', v) :: d' => if decide (k' = k) then Some v else dict_get k d'
  end.

(** [d[k] = v]: an existing key keeps its position, a new key goes last. *)
Fixpoint dict_set (k : string) (v : V) (d : list (string * V)) : list (string * V) :=
  match d with
  | [] => [(k, v)]
  | (k', v') :: d' =>
      if decide (k' = k) then (k, v) :: d' else (k', v') :: dict_set k v d'
  end.

(** [del d[k]] (the callers test [k in d] first). *)
Definition dict_del (k : string) (d : list (string * V)) : list (string * V) :=
  filter (fun kv => kv.1 ≠ k) d.

Definition dict_has (k : string) (d : list (string * V)) : bool :=
  bool_decide (is_Some (dict_get k d)).

Definition dict_keys (d : list (string * V)) : list string := d.*1.
End Dict.

(** ** config.py *)

Module Config.

#[local] Set Warnings "-register-all".

(** A JSON document as [json.loads] returns it (numbers: integers only). *)
Inductive json :=
| JNull
| JBool (b : bool)
| JNum (z : Z)
| JStr (s : string)
| JArr (items : list json)
| JObj (entries : list (string * json)).

(** What is at a path: nothing, or a text that [json.loads] either rejects
    or parses into a document. *)
Inductive file_text :=
| Unparsable
| Parsed (doc : json).

Definition file := option file_text.

(** [load_json(path)]. *)
Definition load_json (path : file) : Res json :=
  match path with
  | Some Unparsable => Raise JSONDecodeError
  | Some (Parsed doc) => Ok doc
  | None => Ok (JObj [])
  end.

End Config.

(** ** sync_state.py *)

Module SyncState.
Import Config.

(** The dataclass [SyncMapping]: all four fields are [str]. *)
Record SyncMapping := {
  uuid : string;               (* Taskwarrior UUID *)
  reminder_id : string;        (* Reminder calendarItemIdentifier *)
  tw_modified : string;        (* last known Taskwarrior modification *)
  reminder_modified : string;  (* last known Reminder modification *)
}.

(** The persisted document [{"version", "mappings", "last_sync"}] when its
    entries have the declared types.  ["version"] is only tested for
    presence, at load time, and is written back as it was read. *)
Record StateDoc := {
  mappings : list (string * SyncMapping);
  last_sync : option string;
}.

Definition empty_doc : StateDoc := {| mappings := []; last_sync := None |}.

(** [x in data] for the string ["version"], on each kind of document. *)
Definition version_in (data : json) : Res bool :=
  match data with
  | JObj entries => Ok (dict_has "version" entries)
  | JArr items =>
      Ok (existsb (fun j => match j with
                            | JStr s => bool_decide (s = "version")
                            | _ => false
                            end) items)
  | JStr s => Ok (str_contains "version" s)
  | JNull | JBool _ | JNum _ => Raise TypeError
  end.

Definition fresh_state : json :=
  JObj [("version", JNum 1); ("mappings", JObj []); ("last_sync", JNull)].

(** [SyncState._load]. *)
Definition _load (state_file : file) : Res json :=
  match load_json state_file with
  | Raise e => Raise e
  | Ok data =>
      match version_in data with
      | Raise e => Raise e
      | Ok true => Ok data
      | Ok false => Ok fresh_state
      end
  end.

(** Reading a loaded document at the declared types: a [SyncMapping] built
    from the keywords of every entry of ["mappings"].  [None] when the
    document does not have that shape. *)
Definition as_str (j : json) : option string :=
  match j with JStr s => Some s | _ => None end.

Definition as_mapping (j : json) : option SyncMapping :=
  match j with
  | JObj kv =>
      if decide (length kv = 4) then
        u ← dict_get "uuid" kv ≫= as_str;
        r ← dict_get "reminder_id" kv ≫= as_str;
        t ← dict_get "tw_modified" kv ≫= as_str;
        m ← dict_get "reminder_modified" kv ≫= as_str;
        Some {| uuid := u; reminder_id := r; tw_modified := t; reminder_modified := m |}
      else None
  | _ => None
  end.

Definition as_doc (j : json) : option StateDoc :=
  match j with
  | JObj kv =>
      ms ← dict_get "mappings" kv;
      ls ← dict_get "last_sync" kv;
      match ms, ls with
      | JObj entries, JNull =>
          tbl ← mapM (fun kv => m ← as_mapping kv.2; Some (kv.1, m)) entries;
          Some {| mappings := tbl; last_sync := None |}
      | JObj entries, JStr s =>
          tbl ← mapM (fun kv => m ← as_mapping kv.2; Some (kv.1, m)) entries;
          Some {| mappings := tbl; last_sync := Some s |}
      | _, _ => None
      end
  | _ => None
  end.

(** The object [SyncState]: the document in memory ([self._state]) and how
    many times [_save] has rewritten the file from it.  Every method that
    changes the document calls [_save], so the file always holds [doc]. *)
Record t := {
  doc : StateDoc;
  saves : nat;
}.

Definition _save (s : t) : t := {| doc := doc s; saves := S (saves s) |}.

(** [SyncState()]: the constructor either propagates the exception of
    [_load], or holds a document of the declared shape, or holds one that is
    outside this embedding. *)
Inductive loaded :=
| LoadFails (e : exn)
| LoadIllTyped
| Loaded (s : t).

Definition init (state_file : file) : loaded :=
  match _load state_file with
  | Raise e => LoadFails e
  | Ok data =>
      match as_doc data with
      | Some d => Loaded {| doc := d; saves := 0 |}
      | None => LoadIllTyped
      end
  end.

Definition update_last_sync (now : string) (s : t) : t :=
  _save {| doc := {| mappings := mappings (doc s); last_sync := Some now |};
           saves := saves s |}.

Definition get_by_uuid (s : t) (u : string) : option SyncMapping :=
  dict_get u (mappings (doc s)).

Fixpoint scan_reminder_id (rid : string) (d : list (string * SyncMapping))
  : option SyncMapping :=
  match d with
  | [] => None
  | (_, data) :: d' =>
      if decide (reminder_id data = rid) then Some data
      else scan_reminder_id rid d'
  end.

Definition get_by_reminder_id (s : t) (rid : string) : option SyncMapping :=
  scan_reminder_id rid (mappings (doc s)).

Definition set_mapping (s : t) (m : SyncMapping) : t :=
  _save {| doc := {| mappings := dict_set (uuid m) m (mappings (doc s));
                     last_sync := last_sync (doc s) |};
           saves := saves s |}.

Definition remove_mapping (s : t) (u : string) : t :=
  if dict_has u (mappings (doc s)) then
    _save {| doc := {| mappings := dict_del u (mappings (doc s));
                       last_sync := last_sync (doc s) |};
             saves := saves s |}
  else s.

Definition all_mappings (s : t) : list SyncMapping := (mappings (doc s)).*2.

Definition known_reminder_ids (s : t) : gset string :=
  list_to_set (reminder_id <$> all_mappings s).

End SyncState.

(** ** The local store, as tasklib presents it *)

Module Tasklib.

(** What the platform decides: JSON numbers with a fraction (coordinates)
    and their truth value, and [datetime.fromisoformat], a [datetime] being
    written as its [isoformat()] text ([None]: [ValueError]); two dates are
    equal when these texts are. *)
Class Platform := {
  number : Type;
  number_truthy : number → bool;
  fromisoformat : string → option string;
}.

Section Store.
Context `{PF : Platform}.

(** One annotation held by a task object: tasklib's [TaskAnnotation], as read
    from the store, or a plain dict, as [sync_reminder_to_task] assigns.
    [save] serialises each annotation with its [export_data()], which a dict
    does not have. *)
Inductive annotation :=
| TaskAnnotation (description : string)
| PlainDict (description : string).

Definition is_dict (a : annotation) : bool :=
  match a with PlainDict _ => true | TaskAnnotation _ => false end.

(** The fields of a task that the sync reads or writes.  The uuid is not one
    of them: it is the key under which the store holds the task, and a task
    object read with [get(uuid=u)] or saved under [u] has [task["uuid"] = u]. *)
Record Task := {
  t_description : string;
  t_project : option string;
  t_due : option string;
  t_priority : option string;
  t_status : string;
  t_modified : option string;
  t_annotations : list annotation;
  t_reminder_id : option string;
  t_loc : option string;
  t_location_lat : option number;
  t_location_lon : option number;
}.

Definition set_description (d : string) (t : Task) : Task :=
  {| t_description := d; t_project := t_project t;
     t_due := t_due t; t_priority := t_priority t; t_status := t_status t;
     t_modified := t_modified t; t_annotations := t_annotations t;
     t_reminder_id := t_reminder_id t; t_loc := t_loc t;
     t_location_lat := t_location_lat t; t_location_lon := t_location_lon t |}.

Definition set_project (p : option string) (t : Task) : Task :=
  {| t_description := t_description t; t_project := p;
     t_due := t_due t; t_priority := t_priority t; t_status := t_status t;
     t_modified := t_modified t; t_annotations := t_annotations t;
     t_reminder_id := t_reminder_id t; t_loc := t_loc t;
     t_location_lat := t_location_lat t; t_location_lon := t_location_lon t |}.

Definition set_due (d : option string) (t : Task) : Task :=
  {| t_description := t_description t; t_project := t_project t;
     t_due := d; t_priority := t_priority t; t_status := t_status t;
     t_modified := t_modified t; t_annotations := t_annotations t;
     t_reminder_id := t_reminder_id t; t_loc := t_loc t;
     t_location_lat := t_location_lat t; t_location_lon := t_location_lon t |}.

Definition set_priority (p : option string) (t : Task) : Task :=
  {| t_description := t_description t; t_project := t_project t;
     t_due := t_due t; t_priority := p; t_status := t_status t;
     t_modified := t_modified t; t_annotations := t_annotations t;
     t_reminder_id := t_reminder_id t; t_loc := t_loc t;
     t_location_lat := t_location_lat t; t_location_lon := t_location_lon t |}.

Definition set_status (s : string) (t : Task) : Task :=
  {| t_description := t_description t; t_project := t_project t;
     t_due := t_due t; t_priority := t_priority t; t_status := s;
     t_modified := t_modified t; t_annotations := t_annotations t;
     t_reminder_id := t_reminder_id t; t_loc := t_loc t;
     t_location_lat := t_location_lat t; t_location_lon := t_location_lon t |}.

Definition set_modified (m : option string) (t : Task) : Task :=
  {| t_description := t_description t; t_project := t_project t;
     t_due := t_due t; t_priority := t_priority t; t_status := t_status t;
     t_modified := m; t_annotations := t_annotations t;
     t_reminder_id := t_reminder_id t; t_loc := t_loc t;
     t_location_lat := t_location_lat t; t_location_lon := t_location_lon t |}.

(** The commands that change the store; the store keeps them in a journal,
    so two stores are equal only if the same commands were sent.  The store
    carries out every command it is sent: what Taskwarrior refuses on its own
    account (a task without description) is not part of this embedding. *)
Inductive command :=
| CmdAdd (u : string)
| CmdModify (u : string)
| CmdDone (u : string)
| CmdDelete (u : string).

Record TaskWarrior := {
  tasks : gmap string Task;
  journal : list command;
}.

(** What the store decides: the uuid it gives a new task, and what
    [tw.tasks.get(uuid=u)] does when nothing matches.  A new uuid is drawn at
    random: it is none of the uuids in existence, [new_uuid in_use] being the
    one drawn when [in_use] are those.  On no match tasklib raises
    [Task.DoesNotExist]; the caller's [if not task] is written for a [get]
    that returns [None].  Both are covered. *)
Class Backend := {
  new_uuid : gset string → string;
  new_uuid_fresh : ∀ in_use, new_uuid in_use ∉ in_use;
  get_raises : bool;
}.

Context `{BE : Backend}.

(** The modification time the store records for its next command: [clock n]
    is the time of the [n]-th command. *)
Definition now (clock : nat → string) (tw : TaskWarrior) : string :=
  clock (length (journal tw)).

(** [tw.tasks.get(uuid=u)]. *)
Definition tasks_get (tw : TaskWarrior) (u : string) : Res (option Task) :=
  match tasks tw !! u with
  | Some task => Ok (Some task)
  | None => if get_raises then Raise DoesNotExist else Ok None
  end.

(** [task.save()] on a task built with [Task(tw)].  The arguments of the
    [add] command are made first, each field serialised in turn: a dict
    among the annotations raises [AttributeError] there, before any command
    is sent.  Otherwise the store adds the task under a new uuid (the uuids in
    existence are those of the store and [elsewhere], those held outside
    it), pending, and the object is refreshed from the store. *)
Definition save_new (clock : nat → string) (elsewhere : gset string)
    (tw : TaskWarrior) (task : Task) : Res (string * Task * TaskWarrior) :=
  if existsb is_dict (t_annotations task) then Raise AttributeError
  else
    let u := new_uuid (dom (tasks tw) ∪ elsewhere) in
    let task' := set_modified (Some (now clock tw)) task in
    Ok (u, task', {| tasks := <[u := task']> (tasks tw);
                     journal := journal tw ++ [CmdAdd u] |}).

(** A task object: [_data] and [_original_data]. *)
Record TaskObject := {
  _data : Task;
  _original_data : Task;
}.

(** The object [tw.tasks.get] returns for a stored task. *)
Definition loaded (task : Task) : TaskObject :=
  {| _data := task; _original_data := task |}.

(** [task[key] = value], as a change of [_data]. *)
Definition assign (change : Task → Task) (o : TaskObject) : TaskObject :=
  {| _data := change (_data o); _original_data := _original_data o |}.

(** One field is among [task._modified_fields]: its two values differ, and
    are not both empty ([None] or [""]). *)
Definition differs (new old : option string) : bool :=
  (truthy_get new || truthy_get old) && bool_decide (new ≠ old).

(** [task.modified], over the writable fields the sync assigns on a task it
    has read (every other field of the object is as read).  A description
    and a status are texts, and a due date is a [datetime] or [None]: two
    different values of these are never both empty. *)
Definition modified (o : TaskObject) : bool :=
  bool_decide (t_description (_data o) ≠ t_description (_original_data o))
  || differs (t_project (_data o)) (t_project (_original_data o))
  || bool_decide (t_due (_data o) ≠ t_due (_original_data o))
  || differs (t_priority (_data o)) (t_priority (_original_data o))
  || bool_decide (t_status (_data o) ≠ t_status (_original_data o)).

(** [task.save()] on the object of the task stored under [u]: nothing
    happens unless the object is modified; then the store changes the
    modified fields of its task, which makes it the object's [_data] with the
    time of the command, and the object is refreshed from the store. *)
Definition save (clock : nat → string) (tw : TaskWarrior) (u : string)
    (o : TaskObject) : TaskObject * TaskWarrior :=
  if modified o then
    let task' := set_modified (Some (now clock tw)) (_data o) in
    (loaded task', {| tasks := <[u := task']> (tasks tw);
                      journal := journal tw ++ [CmdModify u] |})
  else (o, tw).

(** [task.done()]: refused on a completed or deleted task (the status it
    tests is the stored one, which the object read in the same call has);
    otherwise the stored task is completed at once.  Both refreshes of the
    status are made with [update_original=True]: the values of the object,
    pending edits included, become its original ones, its ["modified"] stays
    the one read, and a [save] that follows finds nothing to send. *)
Definition done (clock : nat → string) (tw : TaskWarrior) (u : string)
    (o : TaskObject) : Res (TaskObject * TaskWarrior) :=
  if bool_decide (t_status (_data o) = "completed") then Raise CompletedTask
  else if bool_decide (t_status (_data o) = "deleted") then Raise DeletedTask
  else
    Ok (loaded (set_status "completed" (_data o)),
        {| tasks := alter (fun stored =>
                             set_modified (Some (now clock tw))
                               (set_status "completed" stored))
                          u (tasks tw);
           journal := journal tw ++ [CmdDone u] |}).

(** [task.delete()]: refused on a deleted task. *)
Definition delete (clock : nat → string) (tw : TaskWarrior) (u : string)
    (task : Task) : Res TaskWarrior :=
  if bool_decide (t_status task = "deleted") then Raise DeletedTask
  else
    Ok {| tasks := <[u := set_modified (Some (now clock tw))
                              (set_status "deleted" task)]> (tasks tw);
          journal := journal tw ++ [CmdDelete u] |}.

End Store.
End Tasklib.

(** ** sync_from_reminders.py *)

Module SyncFromReminders.
Import Config SyncState Tasklib.

Section Reconciler.
Context `{PF : Platform} `{BE : !Backend}.

(** One object of the agent's [export] array. *)
Record Reminder := {
  r_identifier : string;
  r_title : string;
  r_list : option string;
  r_dueDate : option string;
  r_priority : option Z;
  r_isCompleted : option bool;
  r_modificationDate : option string;
  r_notes : option string;
  r_hasLocation : option bool;
  r_locationName : option string;
  r_locationLatitude : option number;
  r_locationLongitude : option number;
}.

(** How the [export] subprocess ended: its exit status and its standard
    output as [json.loads] reads it ([None]: not JSON). *)
Record export_run := {
  returncode : Z;
  stdout : option (list Reminder);
}.

Definition fetch_reminders (run : export_run) : Res (list Reminder) :=
  if bool_decide (returncode run ≠ 0%Z) then Ok []
  else match stdout run with
       | Some reminders => Ok reminders
       | None => Raise JSONDecodeError
       end.

Definition map_priority_from_reminder (priority : Z) : option string :=
  if bool_decide (priority = 1%Z) then Some "H"
  else if bool_decide (priority = 5%Z) then Some "M"
  else if bool_decide (priority = 9%Z) then Some "L"
  else None.

(** [s.replace("Z", "+00:00")]. *)
Fixpoint replace_Z (s : string) : string :=
  match s with
  | EmptyString => EmptyString
  | String c rest =>
      if decide (c = "Z"%char) then "+00:00" ++ replace_Z rest
      else String c (replace_Z rest)
  end.

(** Both branches of the test on ["."] make the same call. *)
Definition parse_date (iso_string : option string) : option string :=
  match iso_string with
  | None => None
  | Some s => if truthy_str s then fromisoformat (replace_Z s) else None
  end.

Definition update_task_from_reminder (clock : nat → string) (u : string)
    (task : TaskObject) (reminder : Reminder) (tw : TaskWarrior)
  : Res (TaskObject * TaskWarrior) :=
  let task := assign (set_description (r_title reminder)) task in
  let task :=
    match r_list reminder with
    | Some list_name =>
        if truthy_str list_name && bool_decide (list_name ≠ "Reminders")
        then assign (set_project (Some list_name)) task
        else if bool_decide (list_name = "Reminders")
        then assign (set_project None) task
        else task
    | None => task
    end in
  let task := assign (set_due (parse_date (r_dueDate reminder))) task in
  let task :=
    assign (set_priority
              (map_priority_from_reminder (default 0%Z (r_priority reminder))))
      task in
  if truthy_flag (r_isCompleted reminder)
     && bool_decide (t_status (_data task) ≠ "completed")
  then done clock tw u task
  else if negb (truthy_flag (r_isCompleted reminder))
          && bool_decide (t_status (_data task) = "completed")
  then Ok (assign (set_status "pending") task, tw)
  else Ok (task, tw).

(** [task["modified"].isoformat() if task["modified"] else ""]. *)
Definition modified_iso (task : Task) : string := default "" (t_modified task).

(** The object built in the creation branch, before it is saved. *)
Definition task_of_reminder (reminder : Reminder) : Task :=
  let located := truthy_flag (r_hasLocation reminder) in
  {| t_description := r_title reminder;
     t_project := if bool_decide (r_list reminder ≠ Some "Reminders")
                  then r_list reminder else None;
     t_due := parse_date (r_dueDate reminder);
     t_priority := map_priority_from_reminder (default 0%Z (r_priority reminder));
     t_status := "pending";
     t_modified := None;
     t_annotations := if truthy_get (r_notes reminder)
                      then [PlainDict (default "" (r_notes reminder))] else [];
     t_reminder_id := Some (r_identifier reminder);
     t_loc := if located && truthy_get (r_locationName reminder)
              then r_locationName reminder else None;
     t_location_lat :=
       match r_locationLatitude reminder with
       | Some x => if located && number_truthy x then Some x else None
       | None => None
       end;
     t_location_lon :=
       match r_locationLongitude reminder with
       | Some x => if located && number_truthy x then Some x else None
       | None => None
       end |}.

Definition sync_reminder_to_task (clock : nat → string) (reminder : Reminder)
    (tw : TaskWarrior) (state : SyncState.t) : Res (TaskWarrior * SyncState.t) :=
  let rid := r_identifier reminder in
  match get_by_reminder_id state rid with
  | Some mapping =>
      match tasks_get tw (uuid mapping) with
      | Raise e => Raise e
      | Ok None => Ok (tw, remove_mapping state (uuid mapping))
      | Ok (Some task) =>
          let modified := default "" (r_modificationDate reminder) in
          if String.leb modified (reminder_modified mapping) then Ok (tw, state)
          else
            match update_task_from_reminder clock (uuid mapping) (loaded task)
                    reminder tw with
            | Raise e => Raise e
            | Ok (task, tw) =>
                let '(task, tw) := save clock tw (uuid mapping) task in
                Ok (tw, set_mapping state
                          {| uuid := uuid mapping;
                             reminder_id := reminder_id mapping;
                             tw_modified := modified_iso (_data task);
                             reminder_modified := modified |})
            end
      end
  | None =>
      if truthy_flag (r_isCompleted reminder) then Ok (tw, state)
      else
        match save_new clock (list_to_set (uuid <$> all_mappings state)) tw
                (task_of_reminder reminder) with
        | Raise e => Raise e
        | Ok (u, task, tw) =>
            Ok (tw, set_mapping state
                      {| uuid := u;
                         reminder_id := rid;
                         tw_modified := modified_iso task;
                         reminder_modified :=
                           default "" (r_modificationDate reminder) |})
        end
  end.

(** One pass of the loop of [check_deleted_reminders]; the [try] swallows
    whatever [get] or [delete] raises. *)
Definition sweep_one (clock : nat → string) (current_reminder_ids : gset string)
    (acc : TaskWarrior * SyncState.t) (mapping : SyncMapping)
  : TaskWarrior * SyncState.t :=
  let '(tw, state) := acc in
  if bool_decide (reminder_id mapping ∉ current_reminder_ids) then
    let tw :=
      match tasks_get tw (uuid mapping) with
      | Ok (Some task) =>
          if bool_decide (t_status task ≠ "deleted") then
            match delete clock tw (uuid mapping) task with
            | Ok tw' => tw'
            | Raise _ => tw
            end
          else tw
      | _ => tw
      end in
    (tw, remove_mapping state (uuid mapping))
  else (tw, state).

Definition check_deleted_reminders (clock : nat → string)
    (reminders : list Reminder) (tw : TaskWarrior) (state : SyncState.t)
  : TaskWarrior * SyncState.t :=
  let current_reminder_ids : gset string :=
    list_to_set (r_identifier <$> reminders) in
  fold_left (sweep_one clock current_reminder_ids) (all_mappings state)
    (tw, state).

(** One pass of the loop of [main]: an exception of [sync_reminder_to_task]
    is reported and the loop goes on.  Every [raise] of the embedding comes
    before the first write of the call, so the state is the one before it. *)
Definition sync_one (clock : nat → string) (acc : TaskWarrior * SyncState.t)
    (reminder : Reminder) : TaskWarrior * SyncState.t :=
  match sync_reminder_to_task clock reminder acc.1 acc.2 with
  | Ok acc' => acc'
  | Raise _ => acc
  end.

(** The Reconciler: the loop over the snapshot, then the deletion sweep. *)
Definition reconcile (clock : nat → string) (reminders : list Reminder)
    (acc : TaskWarrior * SyncState.t) : TaskWarrior * SyncState.t :=
  let acc := fold_left (sync_one clock) reminders acc in
  check_deleted_reminders clock reminders acc.1 acc.2.

Inductive outcome :=
| AlreadyRunning                 (* lock held elsewhere: return *)
| Crashed (e : exn)              (* uncaught exception: traceback, exit 1 *)
| OutsideModel                   (* state document not of the declared shape *)
| Completed (tw : TaskWarrior) (state : SyncState.t).

(** [main()]: [lock_free] says whether [flock] succeeds, [today] is
    [datetime.now().isoformat()] at the end of the run. *)
Definition main (lock_free : bool) (state_file : file) (run : export_run)
    (clock : nat → string) (today : string) (tw : TaskWarrior) : outcome :=
  if lock_free then
    match SyncState.init state_file with
    | LoadFails e => Crashed e
    | LoadIllTyped => OutsideModel
    | Loaded state =>
        match fetch_reminders run with
        | Raise e => Crashed e
        | Ok reminders =>
            let '(tw, state) := reconcile clock reminders (tw, state) in
            Completed tw (update_last_sync today state)
        end
    end
  else AlreadyRunning.

End Reconciler.
End SyncFromReminders.

(** ** The hooks: what both share *)

Module Hooks.
Import SyncState.

(** The task object Taskwarrior writes on the hook's standard input, with
    the keys the two hooks read (every value of these keys is a string). *)
Record HookTask := {
  h_uuid : string;
  h_description : option string;
  h_priority : option string;
  h_due : option string;
  h_status : option string;
  h_modified : option string;
  h_entry : option string;
  h_reminder_id : option string;
}.

Definition with_reminder_id (rid : string) (task : HookTask) : HookTask :=
  {| h_uuid := h_uuid task; h_description := h_description task;
     h_priority := h_priority task; h_due := h_due task;
     h_status := h_status task; h_modified := h_modified task;
     h_entry := h_entry task; h_reminder_id := Some rid |}.

(** The state file as the hooks read it: absent, or a document of the
    declared shape. *)
Definition state_file := option StateDoc.

(** How one [subprocess.run] of the agent ended: it exited with a status and
    an output ([None]: the output is not what the caller can read), or the
    call itself raised (time-out, no binary). *)
Inductive agent_run (A : Type) :=
| Exited (returncode : Z) (stdout : option A)
| CallRaised.
Arguments Exited {A} returncode stdout.
Arguments CallRaised {A}.

Definition map_priority_to_reminder (priority : option string) : Z :=
  match priority with
  | Some p =>
      if bool_decide (p = "H") then 1%Z
      else if bool_decide (p = "M") then 5%Z
      else if bool_decide (p = "L") then 9%Z
      else 0%Z
  | None => 0%Z
  end.

End Hooks.

(** ** hooks/on_add.py *)

Module OnAdd.
Import SyncState Hooks.

(** [create_reminder(task)], as far as [main] sees it.  The payload built from
    the task (title, list, priority, due date, notes, location) is what the
    agent receives and has no part in what the function returns: the
    ["identifier"] entry of the agent's JSON answer ([stdout]: that entry, if
    any) when the exit status is zero, and [None] in every other case
    (non-zero status, unreadable answer, time-out). *)
Definition create_reminder (task : HookTask) (run : agent_run (option string))
  : option string :=
  match run with
  | Exited returncode (Some response) =>
      if bool_decide (returncode = 0%Z) then response else None
  | _ => None
  end.

Definition update_sync_state (uuid reminder_id modified : string)
    (file : state_file) : state_file :=
  let state := default empty_doc file in
  Some {| mappings :=
            dict_set uuid
              {| SyncState.uuid := uuid;
                 SyncState.reminder_id := reminder_id;
                 tw_modified := modified;
                 reminder_modified := "" |}
              (mappings state);
          last_sync := last_sync state |}.

(** [main()]: the task printed for Taskwarrior and the state file left. *)
Definition main (task : HookTask) (run : agent_run (option string))
    (file : state_file) : HookTask * state_file :=
  if truthy_get (h_reminder_id task) then (task, file)
  else
    match create_reminder task run with
    | Some reminder_id =>
        if truthy_str reminder_id then
          (with_reminder_id reminder_id task,
           update_sync_state (h_uuid task) reminder_id
             (match h_modified task with
              | Some m => m
              | None => default "" (h_entry task)
              end)
             file)
        else (task, file)
    | None => (task, file)
    end.

End OnAdd.

(** ** hooks/on_modify.py *)

Module OnModify.
Import SyncState Hooks.

Definition get_reminder_id (uuid : string) (file : state_file) : option string :=
  match file with
  | None => None
  | Some state =>
      match dict_get uuid (mappings state) with
      | Some mapping => Some (reminder_id mapping)
      | None => None
      end
  end.

(** The dict [update_data]. *)
Record update_data := {
  u_identifier : string;
  u_title : option string;
  u_priority : option Z;
  u_due_date : option string;
  u_is_completed : option bool;
}.

(** [len(update_data)]: the identifier and the keys that were added. *)
Definition has_key {A : Type} (o : option A) : nat :=
  match o with Some _ => 1 | None => 0 end.

Definition len (d : update_data) : nat :=
  (1 + has_key (u_title d) + has_key (u_priority d)
     + has_key (u_due_date d) + has_key (u_is_completed d))%nat.

Definition build_update_data (reminder_id : string) (task original : HookTask)
  : update_data :=
  {| u_identifier := reminder_id;
     u_title := if bool_decide (h_description task ≠ h_description original)
                then Some (default "" (h_description task)) else None;
     u_priority := if bool_decide (h_priority task ≠ h_priority original)
                   then Some (map_priority_to_reminder (h_priority task))
                   else None;
     u_due_date := if bool_decide (h_due task ≠ h_due original)
                   then Some (if truthy_get (h_due task)
                              then default "" (h_due task) else "")
                   else None;
     u_is_completed :=
       if bool_decide (h_status task = Some "completed")
          && bool_decide (h_status original ≠ Some "completed")
       then Some true
       else if bool_decide (h_status task ≠ Some "completed")
               && bool_decide (h_status original = Some "completed")
       then Some false
       else None |}.

(** The calls made to the agent. *)
Inductive agent_call :=
| CallUpdate (payload : update_data)
| CallDelete (reminder_id : string).

(** [update_reminder]: the calls it makes and the boolean it returns. *)
Definition update_reminder (reminder_id : string) (task original : HookTask)
    (run : agent_run unit) : list agent_call * bool :=
  let data := build_update_data reminder_id task original in
  if bool_decide (len data ≤ 1)%nat then ([], true)
  else
    ([CallUpdate data],
     match run with
     | Exited returncode _ => bool_decide (returncode = 0%Z)
     | CallRaised => false
     end).

Definition delete_reminder (reminder_id : string) (run : agent_run unit)
  : list agent_call * bool :=
  ([CallDelete reminder_id],
   match run with
   | Exited returncode _ => bool_decide (returncode = 0%Z)
   | CallRaised => false
   end).

Definition remove_from_sync_state (uuid : string) (file : state_file)
  : state_file :=
  match file with
  | None => None
  | Some state =>
      if dict_has uuid (mappings state) then
        Some {| mappings := dict_del uuid (mappings state);
                last_sync := last_sync state |}
      else Some state
  end.

(** [main()]: the calls made to the agent, the state file left, and the
    task printed (always the modified one). *)
Definition main (original modified : HookTask) (run : agent_run unit)
    (file : state_file) : list agent_call * state_file * HookTask :=
  let reminder_id :=
    if truthy_get (h_reminder_id modified) then h_reminder_id modified
    else get_reminder_id (h_uuid modified) file in
  match reminder_id with
  | Some rid =>
      if truthy_str rid then
        if bool_decide (h_status modified = Some "deleted") then
          ((delete_reminder rid run).1,
           remove_from_sync_state (h_uuid modified) file, modified)
        else ((update_reminder rid modified original run).1, file, modified)
      else ([], file, modified)
  | None => ([], file, modified)
  end.

End OnModify.

(** ** The document [_save] hands to [save_json]: sync_state.py *)

Module Persist.
Import Config SyncState.

(** [asdict(mapping)]: the four fields, in their order of declaration. *)
Definition asdict (m : SyncMapping) : json :=
  JObj [("uuid", JStr (uuid m)); ("reminder_id", JStr (reminder_id m));
        ("tw_modified", JStr (tw_modified m));
        ("reminder_modified", JStr (reminder_modified m))].

(** The dict [self._state] that holds the table [d] ([set_mapping] puts
    [asdict(mapping)] under the mapping's uuid), with the ["version"] entry
    it was loaded or created with.  [_save] hands it to [save_json]; how
    [json.dumps] writes it is not part of this embedding. *)
Definition state_json (version : json) (d : StateDoc) : json :=
  JObj [("version", version);
        ("mappings", JObj ((λ kv, (kv.1, asdict kv.2)) <$> mappings d));
        ("last_sync", match last_sync d with
                      | Some ts => JStr ts
                      | None => JNull
                      end)].

End Persist.

(** ** hooks/on_add.py: the payload of the create call *)

Module OnAddPayload.
Import Tasklib Hooks.

Section Payload.
Context `{PF : Platform}.

(** [str.lower]. *)
Variable lower : string → string.

(** One entry of the location directory, with the keys [create_reminder]
    subscripts (["name"], ["lat"], ["lon"]: an entry without one of them
    raises [KeyError] there and is outside this embedding); ["radius"] is
    optional. *)
Record Location := {
  l_name : string;
  l_lat : number;
  l_lon : number;
  l_radius : option number;
}.

(** locations.json: no file, or a JSON document, with or without its
    ["locations"] table (a dict: an association list in the order of the
    document, no key twice).  A file that is not JSON makes [json.loads]
    raise and is outside this embedding. *)
Definition locations_file := option (option (list (string * Location))).

Definition load_locations (f : locations_file) : list (string * Location) :=
  match f with
  | Some (Some locations) => locations
  | _ => []
  end.

(** The loop of [lookup_location]: the first entry whose key starts with the
    lowered shorthand, or whose lowered name contains it. *)
Fixpoint first_partial (key_lower : string) (locations : list (string * Location))
  : option Location :=
  match locations with
  | [] => None
  | (key, data) :: rest =>
      if String.prefix key_lower key || str_contains key_lower (lower (l_name data))
      then Some data
      else first_partial key_lower rest
  end.

Definition lookup_location (loc_key : string) (f : locations_file)
  : option Location :=
  let locations := load_locations f in
  match dict_get (lower loc_key) locations with
  | Some data => Some data
  | None => first_partial (lower loc_key) locations
  end.

(** The new task as [create_reminder] reads it: the keys of [HookTask] and
    those of the payload.  [a_annotations] holds the ["description"] of each
    annotation (no annotation also when the key is absent). *)
Record AddTask := {
  a_task : HookTask;
  a_project : option string;
  a_annotations : list (option string);
  a_loc : option string;
  a_location_lat : option number;
  a_location_lon : option number;
  a_location_radius : option number;
  a_location_trigger : option string;
}.

(** A radius of the payload: the literal [100] or a number read. *)
Inductive radius :=
| DefaultRadius
| Radius (x : number).

(** The dict [reminder_data]. *)
Record reminder_data := {
  d_title : string;
  d_list : string;
  d_priority : Z;
  d_due_date : option string;
  d_notes : option string;
  d_location_name : option string;
  d_location_lat : option number;
  d_location_lon : option number;
  d_location_radius : option radius;
  d_location_trigger : option string;
}.

(** ["\n".join(lines)]. *)
Fixpoint join_lines (lines : list string) : string :=
  match lines with
  | [] => ""
  | [line] => line
  | line :: rest => line ++ String "010"%char (join_lines rest)
  end.

Definition truthy_number (o : option number) : bool :=
  match o with Some x => number_truthy x | None => false end.

(** The payload [create_reminder] builds before it calls the agent. *)
Definition build_reminder_data (task : AddTask) (f : locations_file)
  : reminder_data :=
  let has_loc := truthy_get (a_loc task) in
  let location :=
    if has_loc then lookup_location (default "" (a_loc task)) f else None in
  {| d_title := default "" (h_description (a_task task));
     d_list := if truthy_get (a_project task)
               then default "" (a_project task) else "Reminders";
     d_priority := map_priority_to_reminder (h_priority (a_task task));
     d_due_date := if truthy_get (h_due (a_task task))
                   then h_due (a_task task) else None;
     d_notes := match a_annotations task with
                | [] => None
                | annotations => Some (join_lines (default "" <$> annotations))
                end;
     d_location_name :=
       match location with
       | Some found => Some (l_name found)
       | None => if has_loc then a_loc task else None
       end;
     d_location_lat :=
       match location with
       | Some found => Some (l_lat found)
       | None => if has_loc && truthy_number (a_location_lat task)
                 then a_location_lat task else None
       end;
     d_location_lon :=
       match location with
       | Some found => Some (l_lon found)
       | None => if has_loc && truthy_number (a_location_lon task)
                 then a_location_lon task else None
       end;
     d_location_radius :=
       match a_location_radius task with
       | Some x =>
           if number_truthy x then Some (Radius x)
           else match location with
                | Some found =>
                    Some (match l_radius found with
                          | Some r => Radius r
                          | None => DefaultRadius
                          end)
                | None => None
                end
       | None =>
           match location with
           | Some found =>
               Some (match l_radius found with
                     | Some r => Radius r
                     | None => DefaultRadius
                     end)
           | None => None
           end
       end;
     d_location_trigger := if truthy_get (a_location_trigger task)
                           then a_location_trigger task else None |}.

End Payload.
End OnAddPayload.

(** ** A concrete platform and two concrete stores, for the examples *)

Module Demo.
Import Tasklib.

(** Coordinates in whole units, and every non-empty text a valid date. *)
Definition platform : Platform :=
  {| number := Z;
     number_truthy := fun z => bool_decide (z ≠ 0%Z);
     fromisoformat := Some |}.

Definition next_uuid (in_use : gset string) : string := fresh in_use.

Definition next_uuid_fresh (in_use : gset string)
  : next_uuid in_use ∉ in_use := is_fresh in_use.

(** [get] raises on no match (tasklib). *)
Definition strict : Backend :=
  {| new_uuid := next_uuid; new_uuid_fresh := next_uuid_fresh;
     get_raises := true |}.

(** [get] returns [None] on no match. *)
Definition lenient : Backend :=
  {| new_uuid := next_uuid; new_uuid_fresh := next_uuid_fresh;
     get_raises := false |}.

Definition clock (n : nat) : string :=
  match n with
  | 0 => "2024-02-01T10:00:00+00:00"
  | 1 => "2024-02-01T10:00:01+00:00"
  | _ => "2024-02-01T10:00:02+00:00"
  end.

Import SyncState SyncFromReminders.

(** A snapshot record, a stored task and a mapping that links them. *)
Definition milk (modified : option string) (completed : bool) : @Reminder platform :=
  {| r_identifier := "R1"; r_title := "Buy milk"; r_list := Some "Reminders";
     r_dueDate := Some "2024-01-01T00:00:00Z"; r_priority := Some 1%Z;
     r_isCompleted := Some completed; r_modificationDate := modified;
     r_notes := None; r_hasLocation := None; r_locationName := None;
     r_locationLatitude := None; r_locationLongitude := None |}.

Definition bread : @Reminder platform :=
  {| r_identifier := "R2"; r_title := "Buy bread"; r_list := Some "Shopping";
     r_dueDate := None; r_priority := None; r_isCompleted := Some false;
     r_modificationDate := Some "2024-01-05T00:00:00Z";
     r_notes := None; r_hasLocation := None; r_locationName := None;
     r_locationLatitude := None; r_locationLongitude := None |}.

(** A record with notes. *)
Definition eggs : @Reminder platform :=
  {| r_identifier := "R3"; r_title := "Buy eggs"; r_list := Some "Shopping";
     r_dueDate := None; r_priority := None; r_isCompleted := Some false;
     r_modificationDate := Some "2024-01-06T00:00:00Z";
     r_notes := Some "a dozen"; r_hasLocation := None; r_locationName := None;
     r_locationLatitude := None; r_locationLongitude := None |}.

Definition milk_task (status : string) : @Task platform :=
  {| t_description := "Buy milk"; t_project := None;
     t_due := Some "2024-01-01T00:00:00+00:00"; t_priority := Some "H";
     t_status := status; t_modified := Some "2024-01-01T00:00:05+00:00";
     t_annotations := []; t_reminder_id := Some "R1"; t_loc := None;
     t_location_lat := None; t_location_lon := None |}.

Definition milk_mapping : SyncMapping :=
  {| uuid := "u1"; reminder_id := "R1";
     tw_modified := "2024-01-01T00:00:05+00:00";
     reminder_modified := "2024-01-01T00:00:00Z" |}.

(** A mapping of another task, for another record. *)
Definition tea_mapping : SyncMapping :=
  {| uuid := "u2"; reminder_id := "R2";
     tw_modified := "2024-01-05T00:00:05+00:00";
     reminder_modified := "2024-01-05T00:00:00Z" |}.

Definition one_task (status : string) : @TaskWarrior platform :=
  {| tasks := {[ "u1" := milk_task status ]}; journal := [] |}.

Definition no_task : @TaskWarrior platform :=
  {| tasks := ∅; journal := [] |}.

Definition one_mapping : SyncState.t :=
  {| doc := {| mappings := [("u1", milk_mapping)]; last_sync := None |};
     saves := 0 |}.

Definition no_mapping : SyncState.t := {| doc := empty_doc; saves := 0 |}.

(** A table as no write of the program leaves it: the mapping of ["u1"] for
    ["R1"] sits under another key, and the key ["u1"] holds a mapping for
    ["R2"]. *)
Definition misfiled : SyncState.t :=
  {| doc := {| mappings :=
                 [("k1", milk_mapping);
                  ("u1", {| uuid := "u1"; reminder_id := "R2";
                            tw_modified := "2024-01-05T00:00:05+00:00";
                            reminder_modified := "2024-01-05T00:00:00Z" |})];
               last_sync := None |};
     saves := 0 |}.

(** The same task as the hooks see it, and the state file with its mapping. *)
Definition hook_task (status : string) (due : option string)
    (reminder_id : option string) : Hooks.HookTask :=
  {| Hooks.h_uuid := "u1"; Hooks.h_description := Some "Buy milk";
     Hooks.h_priority := Some "H"; Hooks.h_due := due;
     Hooks.h_status := Some status;
     Hooks.h_modified := Some "20240101T000005Z";
     Hooks.h_entry := Some "20240101T000000Z";
     Hooks.h_reminder_id := reminder_id |}.

Definition one_mapping_doc : StateDoc :=
  {| mappings := [("u1", milk_mapping)]; last_sync := None |}.

(** The text of that state file, with and without its ["version"] entry. *)
Definition milk_entry : Config.json :=
  Config.JObj [("uuid", Config.JStr "u1"); ("reminder_id", Config.JStr "R1");
               ("tw_modified", Config.JStr "2024-01-01T00:00:05+00:00");
               ("reminder_modified", Config.JStr "2024-01-01T00:00:00Z")].

Definition versioned_file : Config.file :=
  Some (Config.Parsed
          (Config.JObj [("version", Config.JNum 1);
                        ("mappings", Config.JObj [("u1", milk_entry)]);
                        ("last_sync", Config.JNull)])).

Definition versionless_file : Config.file :=
  Some (Config.Parsed
          (Config.JObj [("mappings", Config.JObj [("u1", milk_entry)]);
                        ("last_sync", Config.JNull)])).

Definition export_ok (reminders : list (@Reminder platform)) : @export_run platform :=
  {| returncode := 0; stdout := Some reminders |}.

Definition export_failed : @export_run platform :=
  {| returncode := 1; stdout := None |}.

End Demo.

(** ** Predicates used to state the properties *)

Module Props.
Import SyncState Tasklib SyncFromReminders Hooks.

(** [task.get("status") == "completed"]. *)
Definition completed (task : HookTask) : bool :=
  bool_decide (h_status task = Some "completed").

(** Every entry of the mapping table sits under the uuid it holds.  Every
    write of the table ([set_mapping], [update_sync_state]) does that. *)
Definition keyed (d : list (string * SyncMapping)) : Prop :=
  Forall (λ kv, uuid kv.2 = kv.1) d.

(** No two mappings share a local identifier; none share a remote one. *)
Definition unique_local (s : SyncState.t) : Prop :=
  NoDup (uuid <$> all_mappings s).

Definition unique_remote (s : SyncState.t) : Prop :=
  NoDup (reminder_id <$> all_mappings s).

(** The states of the Mapping Store: empty at first, then any sequence of
    [set_mapping] and [remove_mapping]. *)
Definition empty_state : SyncState.t := {| doc := empty_doc; saves := 0 |}.

Inductive reachable : SyncState.t → Prop :=
| reach_empty : reachable empty_state
| reach_set s m : reachable s → reachable (set_mapping s m)
| reach_remove s u : reachable s → reachable (remove_mapping s u).

(** The priorities Taskwarrior knows: none, or one of the three letters. *)
Definition tw_priority (p : option string) : Prop :=
  p = None ∨ p = Some "H" ∨ p = Some "M" ∨ p = Some "L".

(** The text holds an upper-case Z. *)
Fixpoint has_Z (s : string) : bool :=
  match s with
  | EmptyString => false
  | String c rest => bool_decide (c = "Z"%char) || has_Z rest
  end.

Section StorePredicates.
Context `{PF : Platform} `{BE : !Backend}.

(** The identifier set of a snapshot ([current_reminder_ids]). *)
Definition snapshot_ids (reminders : list Reminder) : gset string :=
  list_to_set (r_identifier <$> reminders).

(** From one store to a later one: no task disappears, and a deleted task
    stays deleted. *)
Definition store_le (tw tw' : TaskWarrior) : Prop :=
  ∀ u t, tasks tw !! u = Some t →
         ∃ t', tasks tw' !! u = Some t'
               ∧ (t_status t = "deleted" → t_status t' = "deleted").

(** The table is a dict (no key twice) and is keyed. *)
Definition table_ok (d : list (string * SyncMapping)) : Prop :=
  keyed d ∧ NoDup (dict_keys d).

(** A record on which [sync_reminder_to_task] has nothing to do.  Unknown:
    it is completed, or it has notes ([save] raises on the annotation).
    Known: its task is gone and [get] raises; or its task is there and the
    record is not newer than the fingerprint, or is completed while the task
    is deleted ([done] refuses). *)
Definition quiet (r : Reminder) (acc : TaskWarrior * SyncState.t) : Prop :=
  match get_by_reminder_id acc.2 (r_identifier r) with
  | None => truthy_flag (r_isCompleted r) = true
            ∨ truthy_get (r_notes r) = true
  | Some m =>
      match tasks acc.1 !! uuid m with
      | None => get_raises = true
      | Some t =>
          String.leb (default "" (r_modificationDate r))
                     (reminder_modified m) = true
          ∨ (truthy_flag (r_isCompleted r) = true ∧ t_status t = "deleted")
      end
  end.

(** What one pass of the loop does to the table and the store. *)
Inductive pass (r : Reminder) (acc acc' : TaskWarrior * SyncState.t) : Prop :=
| pass_nothing :
    acc' = acc → quiet r acc → pass r acc acc'
| pass_create u m t' :
    scan_reminder_id (r_identifier r) (mappings (doc acc.2)) = None →
    tasks acc.1 !! u = None →
    u ∉ uuid <$> all_mappings acc.2 →
    uuid m = u → reminder_id m = r_identifier r →
    reminder_modified m = default "" (r_modificationDate r) →
    mappings (doc acc'.2) = dict_set u m (mappings (doc acc.2)) →
    tasks acc'.1 = <[u := t']> (tasks acc.1) →
    pass r acc acc'
| pass_update m0 m t0 t' :
    scan_reminder_id (r_identifier r) (mappings (doc acc.2)) = Some m0 →
    tasks acc.1 !! uuid m0 = Some t0 →
    uuid m = uuid m0 → reminder_id m = reminder_id m0 →
    reminder_modified m = default "" (r_modificationDate r) →
    mappings (doc acc'.2) = dict_set (uuid m0) m (mappings (doc acc.2)) →
    tasks acc'.1 = <[uuid m0 := t']> (tasks acc.1) →
    (t_status t0 = "deleted" → t_status t' = "deleted") →
    pass r acc acc'
| pass_forget m0 :
    scan_reminder_id (r_identifier r) (mappings (doc acc.2)) = Some m0 →
    tasks acc.1 !! uuid m0 = None →
    get_raises = false →
    mappings (doc acc'.2) = dict_del (uuid m0) (mappings (doc acc.2)) →
    tasks acc'.1 = tasks acc.1 →
    pass r acc acc'.

(** The status and the project of a task once a record has been applied to
    it: completion follows the record, every other status is kept; the list
    named Reminders stands for no project, and a record without a list leaves
    the project as it was. *)
Definition status_after (reminder : Reminder) (task : Task) : string :=
  if truthy_flag (r_isCompleted reminder) then "completed"
  else if bool_decide (t_status task = "completed") then "pending"
  else t_status task.

Definition project_after (reminder : Reminder) (task : Task) : option string :=
  match r_list reminder with
  | None => t_project task
  | Some list_name =>
      if bool_decide (list_name = "") then t_project task
      else if bool_decide (list_name = "Reminders") then None
      else Some list_name
  end.

(** Two values between which [save] sees no difference. *)
Definition same_or_empty (a b : option string) : Prop :=
  a = b ∨ (truthy_get a = false ∧ truthy_get b = false).

(** [task'] carries what the record gives a task that was [task]: its title,
    due date and priority, and the project and the status that follow from
    the record and from [task]. *)
Definition agrees (reminder : Reminder) (task task' : Task) : Prop :=
  t_description task' = r_title reminder
  ∧ same_or_empty (t_project task') (project_after reminder task)
  ∧ t_due task' = parse_date (r_dueDate reminder)
  ∧ same_or_empty (t_priority task')
      (map_priority_from_reminder (default 0%Z (r_priority reminder)))
  ∧ t_status task' = status_after reminder task.

(** The radius a directory entry gives: its own, or the default. *)
Definition directory_radius (found : OnAddPayload.Location) : OnAddPayload.radius :=
  match OnAddPayload.l_radius found with
  | Some r => OnAddPayload.Radius r
  | None => OnAddPayload.DefaultRadius
  end.
End StorePredicates.

End Props.

(** * Properties *)

Import Config SyncState Tasklib SyncFromReminders Hooks Props.

(** ** Strings as fingerprints *)

Lemma leb_of_not_ltb (a b : string) :
  String.ltb b a = false → String.leb a b = true.
Proof.
  unfold String.ltb, String.leb. rewrite (String.compare_antisym a b).
  destruct (String.compare b a); simpl; congruence.
Qed.

Lemma leb_empty (s : string) : String.leb "" s = true.
Proof. by destruct s. Qed.


(** ** Dicts *)

Section DictFacts.
Context {V : Type}.
Implicit Types (d : list (string * V)) (k : string) (v : V).

Lemma dict_get_set_eq k v d : dict_get k (dict_set k v d) = Some v.
Proof.
  induction d as [|[k' v'] d IH]; simpl.
  - by rewrite decide_True.
  - destruct (decide (k' = k)) as [->|Hne]; simpl.
    + by rewrite decide_True.
    + by rewrite decide_False.
Qed.

Lemma dict_get_set_ne k k' v d :
  k' ≠ k → dict_get k' (dict_set k v d) = dict_get k' d.
Proof.
  intros Hne. induction d as [|[k1 v1] d IH]; simpl.
  - by rewrite decide_False.
  - destruct (decide (k1 = k)) as [->|Hne1]; simpl.
    + by rewrite !decide_False.
    + by rewrite IH.
Qed.

Lemma dict_get_del_eq k d : dict_get k (dict_del k d) = None.
Proof.
  unfold dict_del. induction d as [|[k' v'] d IH]; [done|].
  rewrite filter_cons. simpl. destruct (decide (k' ≠ k)) as [Hne|Heq]; simpl.
  - by rewrite decide_False.
  - done.
Qed.

Lemma dict_get_del_ne k k' d :
  k' ≠ k → dict_get k' (dict_del k d) = dict_get k' d.
Proof.
  intros Hne. unfold dict_del. induction d as [|[k1 v1] d IH]; [done|].
  rewrite filter_cons. simpl. destruct (decide (k1 ≠ k)) as [Hne1|Heq]; simpl.
  - by rewrite IH.
  - apply dec_stable in Heq as ->. by rewrite decide_False.
Qed.

Lemma dict_has_get k d : dict_has k d = true ↔ is_Some (dict_get k d).
Proof. unfold dict_has. apply bool_decide_eq_true. Qed.

Lemma elem_of_dict_set k v d kv :
  kv ∈ dict_set k v d → kv = (k, v) ∨ kv ∈ d.
Proof.
  induction d as [|[k1 v1] d IH]; simpl.
  - intros Hin. apply list_elem_of_singleton in Hin. by left.
  - destruct (decide (k1 = k)) as [->|Hne]; intros Hin;
      apply elem_of_cons in Hin as [Heq|Hin].
    + by left.
    + right. by right.
    + right. subst. left.
    + destruct (IH Hin) as [?|?]; [by left | right; by right].
Qed.

Lemma elem_of_dict_del k d kv : kv ∈ dict_del k d ↔ kv.1 ≠ k ∧ kv ∈ d.
Proof. unfold dict_del. by rewrite list_elem_of_filter. Qed.

Lemma dict_keys_set k v d :
  dict_keys (dict_set k v d)
  = if decide (k ∈ dict_keys d) then dict_keys d else (dict_keys d ++ [k])%list.
Proof.
  unfold dict_keys. induction d as [|[k1 v1] d IH].
  - case_decide as Hin; [by apply elem_of_nil in Hin | done].
  - cbn [dict_set]. destruct (decide (k1 = k)) as [->|Hne].
    + rewrite decide_True; [done | left].
    + rewrite !fmap_cons, IH. cbn [fst].
      destruct (decide (k ∈ d.*1)) as [Hin|Hnin].
      * rewrite decide_True; [done | by right].
      * rewrite decide_False; [done|].
        intros Hin. apply elem_of_cons in Hin as [?|?]; congruence.
Qed.

Lemma NoDup_keys_set k v d :
  NoDup (dict_keys d) → NoDup (dict_keys (dict_set k v d)).
Proof.
  intros Hnd. rewrite dict_keys_set. case_decide as Hin; [done|].
  apply NoDup_app. split; [done|]. split; [|apply NoDup_singleton].
  intros x Hx Hx'. apply list_elem_of_singleton in Hx'. by subst.
Qed.

Lemma NoDup_keys_del k d :
  NoDup (dict_keys d) → NoDup (dict_keys (dict_del k d)).
Proof.
  unfold dict_keys, dict_del. induction d as [|[k1 v1] d IH]; [done|].
  rewrite fmap_cons, NoDup_cons. intros [Hnin Hnd].
  rewrite filter_cons. case_decide; [|auto].
  rewrite fmap_cons. apply NoDup_cons. split; [|auto].
  intros Hin. apply Hnin.
  apply list_elem_of_fmap in Hin as (kv & Heq & Hkv).
  apply list_elem_of_filter in Hkv as [_ Hkv].
  rewrite Heq. by apply list_elem_of_fmap_2.
Qed.

Lemma dict_del_absent k d : dict_has k d = false → dict_del k d = d.
Proof.
  unfold dict_has, dict_del. intros Hno.
  apply bool_decide_eq_false in Hno.
  induction d as [|[k1 v1] d IH]; [done|].
  simpl in Hno. rewrite filter_cons. simpl.
  destruct (decide (k1 = k)) as [->|Hne].
  - exfalso. apply Hno. by eexists.
  - rewrite decide_True by done. by rewrite IH.
Qed.

Lemma dict_get_Some_elem k v d : dict_get k d = Some v → (k, v) ∈ d.
Proof.
  induction d as [|[k' v'] d IH]; simpl; [done|].
  destruct (decide (k' = k)) as [->|Hne].
  - intros [= ->]. left.
  - intros Hd. right. auto.
Qed.

Lemma dict_get_elem_NoDup k v d :
  NoDup (dict_keys d) → (k, v) ∈ d → dict_get k d = Some v.
Proof.
  unfold dict_keys. induction d as [|[k' v'] d IH].
  - intros _ Hin. by apply elem_of_nil in Hin.
  - rewrite fmap_cons, NoDup_cons. cbn [dict_get fst]. intros [Hnotin Hnd] Hin.
    apply elem_of_cons in Hin as [[= -> ->]|Hin].
    + by rewrite decide_True.
    + rewrite decide_False; [auto|].
      intros ->. apply Hnotin. apply list_elem_of_fmap. by exists (k, v).
Qed.

Lemma elem_of_dict_set_ne k k' v v' d :
  (k', v') ∈ d → k' ≠ k → (k', v') ∈ dict_set k v d.
Proof.
  intros Hin Hne. induction d as [|[k1 v1] d IH]; simpl.
  - by apply elem_of_nil in Hin.
  - apply elem_of_cons in Hin as [[= <- <-]|Hin].
    + rewrite decide_False by done. left.
    + case_decide; right; auto.
Qed.

End DictFacts.

(** ** The Mapping Store *)

Lemma mappings_set s m :
  mappings (doc (set_mapping s m)) = dict_set (uuid m) m (mappings (doc s)).
Proof. done. Qed.

Lemma mappings_remove s u :
  mappings (doc (remove_mapping s u)) = dict_del u (mappings (doc s)).
Proof.
  unfold remove_mapping. destruct (dict_has u _) eqn:Hhas; [done|].
  by rewrite dict_del_absent.
Qed.

Lemma keyed_set m d : keyed d → keyed (dict_set (uuid m) m d).
Proof.
  unfold keyed. rewrite !Forall_forall. intros Hk kv Hin.
  apply elem_of_dict_set in Hin as [->|Hin]; [done | auto].
Qed.

Lemma keyed_del k d : keyed d → keyed (dict_del k d).
Proof.
  unfold keyed. rewrite !Forall_forall. intros Hk kv Hin.
  apply elem_of_dict_del in Hin as [_ Hin]. auto.
Qed.

Lemma keyed_uuids d : keyed d → uuid <$> d.*2 = d.*1.
Proof.
  induction 1 as [|[k m] d Hkm _ IH]; [done|].
  rewrite !fmap_cons. simpl in Hkm. cbn [fst snd]. by rewrite Hkm, IH.
Qed.

(** Every reachable state has a well-formed table. *)
Lemma reachable_wf s : reachable s → table_ok (mappings (doc s)).
Proof.
  induction 1 as [|s m _ [IHk IHn]|s u _ [IHk IHn]].
  - split; [constructor | constructor].
  - rewrite mappings_set. split; [by apply keyed_set | by apply NoDup_keys_set].
  - rewrite mappings_remove. split; [by apply keyed_del | by apply NoDup_keys_del].
Qed.

Lemma NoDup_rids_set m d :
  NoDup (dict_keys d) →
  NoDup (reminder_id <$> d.*2) →
  (∀ kv, kv ∈ d → reminder_id kv.2 = reminder_id m → kv.1 = uuid m) →
  NoDup (reminder_id <$> (dict_set (uuid m) m d).*2).
Proof.
  unfold dict_keys. induction d as [|[k1 m1] d IH]; simpl.
  - intros _ _ _. apply NoDup_singleton.
  - rewrite !NoDup_cons. intros [Hk Hnk] [Hr Hnr] Hsame.
    destruct (decide (k1 = uuid m)) as [->|Hne]; simpl.
    + apply NoDup_cons. split; [|done].
      intros Hin. apply list_elem_of_fmap in Hin as (m' & Hm' & Hin).
      apply list_elem_of_fmap in Hin as ([k' m''] & -> & Hin). simpl in *.
      apply Hk. apply list_elem_of_fmap. exists (k', m''). split; [|done].
      simpl. symmetry. apply (Hsame (k', m'')); [by right | done].
    + apply NoDup_cons. split.
      * intros Hin. apply list_elem_of_fmap in Hin as (m' & Hm' & Hin).
        apply list_elem_of_fmap in Hin as (kv & -> & Hin).
        apply elem_of_dict_set in Hin as [->|Hin]; simpl in *.
        -- apply Hne. apply (Hsame (k1, m1)); [left | done].
        -- apply Hr. apply list_elem_of_fmap. exists kv.2. split; [done|].
           by apply list_elem_of_fmap_2.
      * apply IH; [done | done |]. intros kv Hin. apply Hsame. by right.
Qed.

Lemma NoDup_rids_del k d :
  NoDup (reminder_id <$> d.*2) → NoDup (reminder_id <$> (dict_del k d).*2).
Proof.
  unfold dict_del. induction d as [|[k1 m1] d IH]; [done|].
  simpl. rewrite NoDup_cons. intros [Hr Hnr].
  rewrite filter_cons. case_decide; [|auto].
  simpl. apply NoDup_cons. split; [|auto].
  intros Hin. apply Hr.
  apply list_elem_of_fmap in Hin as (m' & Hm' & Hin).
  apply list_elem_of_fmap in Hin as (kv & -> & Hin).
  apply list_elem_of_filter in Hin as [_ Hin].
  apply list_elem_of_fmap. exists kv.2. split; [done|].
  by apply list_elem_of_fmap_2.
Qed.

(** C4, as stated, fails: two upserts with different local identifiers and
    the same remote identifier give a reachable state in which two mappings
    share that remote identifier. *)
Lemma upsert_can_share_remote_id :
  let m1 := {| uuid := "u1"; reminder_id := "R1"; tw_modified := ""; reminder_modified := "" |} in
  let m2 := {| uuid := "u2"; reminder_id := "R1"; tw_modified := ""; reminder_modified := "" |} in
  reachable (set_mapping (set_mapping empty_state m1) m2)
  ∧ ¬ (unique_local (set_mapping (set_mapping empty_state m1) m2)
       ∧ unique_remote (set_mapping (set_mapping empty_state m1) m2)).
Proof.
  split.
  - do 2 apply reach_set. apply reach_empty.
  - intros [_ Hr]. vm_compute in Hr.
    apply NoDup_cons in Hr as [Hr _]. apply Hr. left.
Qed.

(** C4, amended. In every reachable state no two mappings share a local
    identifier.  Remote identifiers stay distinct under [remove_mapping], and
    under [set_mapping] when no mapping with another local identifier already
    holds the remote identifier of the new one. *)
Theorem reachable_local_ids_unique s :
  reachable s →
  unique_local s
  ∧ (∀ m, unique_remote s →
          (∀ m', m' ∈ all_mappings s →
                 reminder_id m' = reminder_id m → uuid m' = uuid m) →
          unique_remote (set_mapping s m))
  ∧ (∀ u, unique_remote s → unique_remote (remove_mapping s u)).
Proof.
  intros Hreach. destruct (reachable_wf s Hreach) as [Hk Hn].
  split; [|split].
  - unfold unique_local, all_mappings. by rewrite keyed_uuids.
  - intros m Hr Hsame. unfold unique_remote, all_mappings in *.
    rewrite mappings_set. apply NoDup_rids_set; [done | done |].
    intros kv Hin Heq.
    unfold keyed in Hk. rewrite Forall_forall in Hk. rewrite <- (Hk kv Hin).
    apply Hsame; [|done]. by apply list_elem_of_fmap_2.
  - intros u Hr. unfold unique_remote, all_mappings in *.
    rewrite mappings_remove. by apply NoDup_rids_del.
Qed.

Lemma reachable_local_ids_unique_witness :
  let s := set_mapping empty_state Demo.milk_mapping in
  unique_local s
  ∧ (∀ m, unique_remote s →
          (∀ m', m' ∈ all_mappings s →
                 reminder_id m' = reminder_id m → uuid m' = uuid m) →
          unique_remote (set_mapping s m))
  ∧ (∀ u, unique_remote s → unique_remote (remove_mapping s u)).
Proof.
  apply (reachable_local_ids_unique (set_mapping empty_state Demo.milk_mapping)).
  apply reach_set, reach_empty.
Defined.

(** ** Loading the Mapping Store *)

(** C9, as stated, fails: a state file that parses but has no ["version"]
    entry, here one that holds a mapping, is read as the empty table, and the
    run completes on it. *)
Lemma versionless_file_read_as_empty :
  _load Demo.versionless_file = Ok fresh_state
  ∧ init Demo.versionless_file = Loaded empty_state
  ∧ main (BE := Demo.strict) true Demo.versionless_file
      (Demo.export_ok [Demo.milk (Some "2024-01-01T00:00:00Z") true])
      Demo.clock "2024-02-01T10:00:00" (Demo.one_task "pending")
    = Completed (Demo.one_task "pending")
        {| doc := {| mappings := []; last_sync := Some "2024-02-01T10:00:00" |};
           saves := 1 |}.
Proof. repeat split; reflexivity. Qed.

Section Load.
Context `{PF : Platform} `{BE : !Backend}.

(** C9, amended. A missing state file is the empty table.  A state file that
    is not JSON makes [_load] raise, and the run ends there with that
    exception uncaught; so does one whose document is [null], a boolean or a
    number.  A state file that parses to an object, array or string without
    ["version"] is replaced by the empty table. *)
Theorem load_missing_unparsable_versionless :
  (_load None = Ok fresh_state ∧ init None = Loaded empty_state)
  ∧ (_load (Some Unparsable) = Raise JSONDecodeError
     ∧ ∀ run clock today tw,
         main true (Some Unparsable) run clock today tw = Crashed JSONDecodeError)
  ∧ (∀ data run clock today tw,
       version_in data = Raise TypeError →
       main true (Some (Parsed data)) run clock today tw = Crashed TypeError)
  ∧ (∀ data, version_in data = Ok false →
       _load (Some (Parsed data)) = Ok fresh_state
       ∧ init (Some (Parsed data)) = Loaded empty_state).
Proof.
  split; [|split; [|split]].
  - split; reflexivity.
  - split; [reflexivity|]. intros run clock today tw. reflexivity.
  - intros data run clock today tw Hv.
    unfold main, init, _load. simpl. by rewrite Hv.
  - intros data Hv. unfold init, _load. simpl. rewrite Hv. split; reflexivity.
Qed.

End Load.

Lemma load_missing_unparsable_versionless_witness :
  _load Demo.versionless_file = Ok fresh_state
  ∧ init Demo.versionless_file = Loaded empty_state.
Proof.
  apply (load_missing_unparsable_versionless (PF := Demo.platform)
           (BE := Demo.strict)).
  reflexivity.
Defined.

(** ** Scanning the table by remote identifier *)

Section Scan.
Implicit Types (d : list (string * SyncMapping)) (m : SyncMapping).

Lemma scan_Some_elem rid d m :
  scan_reminder_id rid d = Some m → reminder_id m = rid ∧ ∃ k, (k, m) ∈ d.
Proof.
  induction d as [|[k1 m1] d IH]; simpl; [done|].
  case_decide as Hr.
  - intros [= <-]. split; [done|]. exists k1. left.
  - intros Hs. destruct (IH Hs) as [? [k ?]]. split; [done|]. exists k. by right.
Qed.

(** Writing a mapping for [rid] when none was there. *)
Lemma scan_set_new rid k m d :
  scan_reminder_id rid d = None → reminder_id m = rid →
  scan_reminder_id rid (dict_set k m d) = Some m.
Proof.
  intros Hnone Hm. induction d as [|[k1 m1] d IH]; simpl in *.
  - by rewrite decide_True.
  - case_decide as Hr; [done|].
    destruct (decide (k1 = k)) as [->|Hne]; simpl.
    + by rewrite decide_True.
    + rewrite decide_False by done. auto.
Qed.




End Scan.

(** ** The Reconciler on one record *)

Section SkipRule.
Context `{PF : Platform} `{BE : !Backend}.

(** C1. A record that has a mapping and a stored task, and whose modification
    time is not strictly greater (as a string) than the mapping's remote
    fingerprint, is skipped: [sync_reminder_to_task] returns with the store
    (tasks and journal: no command sent) and the sync state (table and number
    of writes) as they were.  Equal times are one such case. *)
Theorem remote_not_newer_is_skipped clock reminder tw state mapping task :
  get_by_reminder_id state (r_identifier reminder) = Some mapping →
  tasks tw !! uuid mapping = Some task →
  String.ltb (reminder_modified mapping)
             (default "" (r_modificationDate reminder)) = false →
  sync_reminder_to_task clock reminder tw state = Ok (tw, state).
Proof.
  intros Hmap Htask Hnot.
  unfold sync_reminder_to_task, tasks_get.
  rewrite Hmap, Htask.
  by rewrite (leb_of_not_ltb _ _ Hnot).
Qed.

(** C10. A record that has a mapping and a stored task but no
    [modificationDate] is always skipped: the default [""] is below or equal
    to every stored fingerprint. *)
Theorem missing_modification_date_is_skipped clock reminder tw state mapping task :
  get_by_reminder_id state (r_identifier reminder) = Some mapping →
  tasks tw !! uuid mapping = Some task →
  r_modificationDate reminder = None →
  sync_reminder_to_task clock reminder tw state = Ok (tw, state)
  ∧ String.ltb (reminder_modified mapping)
               (default "" (r_modificationDate reminder)) = false.
Proof.
  intros Hmap Htask Hnone.
  unfold sync_reminder_to_task, tasks_get.
  rewrite Hmap, Htask, Hnone. simpl.
  rewrite leb_empty. split; [done|].
  unfold String.ltb. by destruct (reminder_modified mapping).
Qed.

End SkipRule.

(** The scenario of the specification: fingerprint and record both at
    [2024-01-01T00:00:00Z]. *)
Lemma remote_not_newer_is_skipped_witness :
  sync_reminder_to_task (BE := Demo.strict) Demo.clock
    (Demo.milk (Some "2024-01-01T00:00:00Z") true)
    (Demo.one_task "pending") Demo.one_mapping
  = Ok (Demo.one_task "pending", Demo.one_mapping).
Proof.
  apply (remote_not_newer_is_skipped (BE := Demo.strict) Demo.clock
           (Demo.milk (Some "2024-01-01T00:00:00Z") true)
           (Demo.one_task "pending") Demo.one_mapping
           Demo.milk_mapping (Demo.milk_task "pending")).
  - reflexivity.
  - reflexivity.
  - reflexivity.
Defined.

Lemma missing_modification_date_is_skipped_witness :
  sync_reminder_to_task (BE := Demo.lenient) Demo.clock
    (Demo.milk None true) (Demo.one_task "pending") Demo.one_mapping
  = Ok (Demo.one_task "pending", Demo.one_mapping).
Proof.
  apply (missing_modification_date_is_skipped (BE := Demo.lenient)
           Demo.clock (Demo.milk None true)
           (Demo.one_task "pending") Demo.one_mapping
           Demo.milk_mapping (Demo.milk_task "pending")).
  - reflexivity.
  - reflexivity.
  - reflexivity.
Defined.

(** The scenario of the specification for a first sight: empty table, one
    active record with priority 1 and a due date.  One task is added, with
    priority H and that date, and one mapping links the two identifiers, its
    remote fingerprint being the record's modification time. *)
Example first_sight_creates_task :
  let final := reconcile (BE := Demo.strict) Demo.clock
                 [Demo.milk (Some "2024-01-01T00:00:00Z") false]
                 (Demo.no_task, Demo.no_mapping) in
  journal final.1 = [CmdAdd "0"]
  ∧ (@t_priority Demo.platform <$> (tasks final.1 !! "0")) = Some (Some "H")
  ∧ (@t_due Demo.platform <$> (tasks final.1 !! "0"))
    = Some (Some "2024-01-01T00:00:00+00:00")
  ∧ mappings (doc final.2)
    = [("0", {| uuid := "0"; reminder_id := "R1";
                tw_modified := "2024-02-01T10:00:00+00:00";
                reminder_modified := "2024-01-01T00:00:00Z" |})].
Proof. repeat split; reflexivity. Qed.

(** ** One pass of the loop *)

Section Steps.
Context `{PF : Platform} `{BE : !Backend}.
Implicit Types (tw : TaskWarrior) (st : SyncState.t) (r : Reminder).

(** The object [update_task_from_reminder] holds once it has assigned the
    title, the project, the due date and the priority, and what it does with
    it. *)
Lemma update_object clock u t r tw :
  ∃ o, _original_data o = t
    ∧ t_status (_data o) = t_status t
    ∧ t_description (_data o) = r_title r
    ∧ t_project (_data o) = project_after r t
    ∧ t_due (_data o) = parse_date (r_dueDate r)
    ∧ t_priority (_data o)
      = map_priority_from_reminder (default 0%Z (r_priority r))
    ∧ t_modified (_data o) = t_modified t
    ∧ t_annotations (_data o) = t_annotations t
    ∧ t_reminder_id (_data o) = t_reminder_id t
    ∧ t_loc (_data o) = t_loc t
    ∧ update_task_from_reminder clock u (loaded t) r tw
      = if truthy_flag (r_isCompleted r)
           && bool_decide (t_status t ≠ "completed")
        then done clock tw u o
        else if negb (truthy_flag (r_isCompleted r))
                && bool_decide (t_status t = "completed")
        then Ok (assign (set_status "pending") o, tw)
        else Ok (o, tw).
Proof.
  unfold update_task_from_reminder.
  set (o := assign (set_priority _) (assign (set_due _) _)).
  exists o.
  assert (Hst : t_status (_data o) = t_status t).
  { unfold o. destruct (r_list r) as [l|]; [|done]. by repeat case_match. }
  assert (Hpr : t_project (_data o) = project_after r t).
  { unfold o, project_after, truthy_str.
    destruct (r_list r) as [l|]; [|done]. simpl.
    destruct (decide (l = "")) as [->|Hl]; [done|].
    rewrite (bool_decide_true (l ≠ "")) by done.
    rewrite (bool_decide_false (l = "")) by done. simpl.
    destruct (decide (l = "Reminders")) as [->|Hr]; [done|].
    rewrite (bool_decide_true (l ≠ "Reminders")) by done.
    by rewrite (bool_decide_false (l = "Reminders")) by done. }
  split; [unfold o; destruct (r_list r) as [l|]; [by repeat case_match | done]|].
  split; [done|].
  split; [unfold o; destruct (r_list r) as [l|]; [by repeat case_match | done]|].
  split; [done|].
  do 6 (split; [unfold o; destruct (r_list r) as [l|];
                [by repeat case_match | done]|]).
  by rewrite Hst.
Qed.

(** An object on which [done] has just been called is not modified. *)
Lemma modified_loaded t : modified (loaded t) = false.
Proof.
  unfold modified, loaded, differs. simpl.
  rewrite !(bool_decide_false (_ ≠ _)) by (by intros ?).
  by rewrite !andb_false_r.
Qed.

(** [update_task_from_reminder] followed by [save], on the object of a stored
    task: an exception comes from [done] on a deleted task only, before
    anything is sent; otherwise at most the task under [u] changes, a
    deleted task stays deleted, and commands are only added. *)
Lemma update_save_cases clock u t r tw :
  tasks tw !! u = Some t →
  match update_task_from_reminder clock u (loaded t) r tw with
  | Raise e => truthy_flag (r_isCompleted r) = true ∧ t_status t = "deleted"
  | Ok (o, tw1) =>
      ∃ t', tasks (save clock tw1 u o).2 = <[u := t']> (tasks tw)
            ∧ (t_status t = "deleted" → t_status t' = "deleted")
            ∧ journal tw `prefix_of` journal (save clock tw1 u o).2
  end.
Proof.
  intros Ht.
  destruct (update_object clock u t r tw)
    as (o & Horig & Hst & _ & _ & _ & _ & _ & _ & _ & _ & ->).
  destruct (truthy_flag (r_isCompleted r)) eqn:Hc; simpl.
  - case_bool_decide as Hs; simpl.
    + unfold done. rewrite Hst. rewrite bool_decide_false by done.
      case_bool_decide as Hd; [done|].
      unfold save. rewrite modified_loaded. simpl.
      exists (set_modified (Some (now clock tw)) (set_status "completed" t)).
      split; [|split; [done | by apply prefix_app_r]].
      apply map_eq. intros k. destruct (decide (k = u)) as [->|Hne].
      * by rewrite lookup_alter_eq, lookup_insert_eq, Ht.
      * by rewrite lookup_alter_ne, lookup_insert_ne.
    + unfold save. destruct (modified o); simpl.
      * eexists. split; [done|]. split; [|by apply prefix_app_r].
        simpl. rewrite Hst. intros Hdel. rewrite Hdel in Hs. by destruct Hs.
      * exists t. split; [by rewrite insert_id | done].
  - case_bool_decide as Hs; simpl.
    + unfold save. destruct (modified _); simpl.
      * eexists. split; [done|]. split; [|by apply prefix_app_r].
        simpl. intros Hdel. congruence.
      * exists t. split; [by rewrite insert_id | split; [done | done]].
    + unfold save. destruct (modified o); simpl.
      * eexists. split; [done|]. split; [|by apply prefix_app_r].
        simpl. by rewrite Hst.
      * exists t. split; [by rewrite insert_id | done].
Qed.

Lemma sync_one_pass clock r acc : pass r acc (sync_one clock acc r).
Proof.
  destruct acc as [tw st]. unfold sync_one, sync_reminder_to_task. simpl.
  unfold get_by_reminder_id.
  destruct (scan_reminder_id (r_identifier r) (mappings (doc st))) as [m0|] eqn:Hscan.
  - unfold tasks_get. destruct (tasks tw !! uuid m0) as [t0|] eqn:Ht.
    + destruct (String.leb _ _) eqn:Hleb.
      { apply pass_nothing; [done|]. unfold quiet, get_by_reminder_id.
        simpl. rewrite Hscan, Ht. by left. }
      assert (Hu := update_save_cases clock (uuid m0) t0 r tw Ht).
      destruct (update_task_from_reminder clock (uuid m0) (loaded t0) r tw)
        as [[o tw1]|e].
      * destruct Hu as (t' & Htasks & Hdel & _).
        destruct (save clock tw1 (uuid m0) o) as [o' tw'] eqn:Hsave.
        simpl in Htasks.
        by apply (pass_update _ _ _ m0
                 {| uuid := uuid m0; reminder_id := reminder_id m0;
                    tw_modified := modified_iso (_data o');
                    reminder_modified := default "" (r_modificationDate r) |}
                 t0 t').
      * apply pass_nothing; [done|]. unfold quiet, get_by_reminder_id.
        simpl. rewrite Hscan, Ht. by right.
    + destruct get_raises eqn:Hget.
      * apply pass_nothing; [done|]. unfold quiet, get_by_reminder_id.
        simpl. by rewrite Hscan, Ht.
      * simpl. apply (pass_forget _ _ _ m0); try done.
        apply mappings_remove.
  - destruct (truthy_flag (r_isCompleted r)) eqn:Hc.
    { apply pass_nothing; [done|]. unfold quiet, get_by_reminder_id.
      simpl. rewrite Hscan. by left. }
    unfold save_new. simpl.
    destruct (truthy_get (r_notes r)) eqn:Hnotes; simpl.
    { apply pass_nothing; [done|]. unfold quiet, get_by_reminder_id.
      simpl. rewrite Hscan. by right. }
    set (u := new_uuid _).
    assert (Hfresh := new_uuid_fresh
              (dom (tasks tw) ∪ list_to_set (uuid <$> all_mappings st))).
    fold u in Hfresh. apply not_elem_of_union in Hfresh as [Hstore Htable].
    apply (pass_create _ _ _ u
             {| uuid := u; reminder_id := r_identifier r;
                tw_modified := modified_iso
                                 (set_modified (Some (now clock tw))
                                    (task_of_reminder r));
                reminder_modified := default "" (r_modificationDate r) |}
             (set_modified (Some (now clock tw)) (task_of_reminder r)));
      try done.
    + by apply not_elem_of_dom.
    + by rewrite elem_of_list_to_set in Htable.
Qed.
End Steps.

(** ** The loop over the snapshot *)

Section Loop.
Context `{PF : Platform} `{BE : !Backend}.
Implicit Types (tw : TaskWarrior) (st : SyncState.t) (r : Reminder).

Lemma scan_key d rid m :
  table_ok d → scan_reminder_id rid d = Some m →
  reminder_id m = rid ∧ (uuid m, m) ∈ d ∧ dict_get (uuid m) d = Some m.
Proof.
  intros [Hk Hn] Hs. apply scan_Some_elem in Hs as [Hr [k Hin]].
  unfold keyed in Hk. rewrite Forall_forall in Hk.
  specialize (Hk _ Hin). simpl in Hk. subst k.
  split; [done|]. split; [done|]. by apply dict_get_elem_NoDup.
Qed.


Lemma pass_table_ok r acc acc' :
  pass r acc acc' → table_ok (mappings (doc acc.2)) →
  table_ok (mappings (doc acc'.2)).
Proof.
  intros Hp [Hk Hn].
  destruct Hp as [-> _|u m t' _ _ _ Hu _ _ -> _|m0 m t0 t' _ _ Hu _ _ -> _ _
                 |m0 _ _ _ -> _].
  - done.
  - subst u. split; [by apply keyed_set | by apply NoDup_keys_set].
  - rewrite <- Hu. split; [by apply keyed_set | by apply NoDup_keys_set].
  - split; [by apply keyed_del | by apply NoDup_keys_del].
Qed.

Lemma pass_store_le r acc acc' : pass r acc acc' → store_le acc.1 acc'.1.
Proof.
  intros Hp u t Hut.
  destruct Hp as [-> _|u0 m t' _ Hnone _ _ _ _ _ ->
                 |m0 m t0 t' _ Ht0 _ _ _ _ -> Hdel|m0 _ _ _ _ ->].
  - eauto.
  - rewrite lookup_insert_ne by congruence. eauto.
  - destruct (decide (uuid m0 = u)) as [<-|Hne].
    + rewrite lookup_insert_eq. rewrite Ht0 in Hut. injection Hut as <-. eauto.
    + rewrite lookup_insert_ne by done. eauto.
  - eauto.
Qed.






End Loop.

(** ** The deletion sweep *)

Section Sweep.
Context `{PF : Platform} `{BE : !Backend}.
Implicit Types (tw : TaskWarrior) (st : SyncState.t) (m : SyncMapping)
  (ids : gset string).

Lemma store_le_refl tw : store_le tw tw.
Proof. intros u t Ht. eauto. Qed.

Lemma store_le_trans tw1 tw2 tw3 :
  store_le tw1 tw2 → store_le tw2 tw3 → store_le tw1 tw3.
Proof.
  intros H12 H23 u t Ht. destruct (H12 _ _ Ht) as (t2 & Ht2 & Hd2).
  destruct (H23 _ _ Ht2) as (t3 & Ht3 & Hd3). eauto.
Qed.

Lemma sweep_one_id clock ids acc m :
  reminder_id m ∈ ids → sweep_one clock ids acc m = acc.
Proof.
  intros Hin. destruct acc as [tw st]. unfold sweep_one.
  by rewrite bool_decide_false by (by intros ?).
Qed.

Lemma sweep_one_table clock ids acc m :
  reminder_id m ∉ ids →
  mappings (doc (sweep_one clock ids acc m).2)
  = dict_del (uuid m) (mappings (doc acc.2)).
Proof.
  intros Hnin. destruct acc as [tw st]. unfold sweep_one.
  rewrite bool_decide_true by done. simpl. apply mappings_remove.
Qed.

Lemma sweep_one_store clock ids acc m :
  store_le acc.1 (sweep_one clock ids acc m).1
  ∧ (reminder_id m ∉ ids → is_Some (tasks acc.1 !! uuid m) →
     ∃ t', tasks (sweep_one clock ids acc m).1 !! uuid m = Some t'
           ∧ t_status t' = "deleted").
Proof.
  destruct acc as [tw st]. unfold sweep_one.
  case_bool_decide as Hid; simpl; [|split; [apply store_le_refl | done]].
  unfold tasks_get. destruct (tasks tw !! uuid m) as [t|] eqn:Ht.
  - case_bool_decide as Hs.
    + unfold delete. rewrite bool_decide_false by done. simpl. split.
      * intros u t0 Hu. simpl. destruct (decide (uuid m = u)) as [<-|Hne].
        -- rewrite lookup_insert_eq. eauto.
        -- rewrite lookup_insert_ne by done. eauto.
      * intros _ _. simpl. rewrite lookup_insert_eq. eauto.
    + split; [apply store_le_refl|]. intros _ _. exists t.
      split; [done|]. by destruct (decide (t_status t = "deleted")).
  - split; [|intros _ [? ?]; done].
    destruct get_raises; apply store_le_refl.
Qed.

Lemma sweep_all_id clock ids ms acc :
  (∀ m, m ∈ ms → reminder_id m ∈ ids) →
  fold_left (sweep_one clock ids) ms acc = acc.
Proof.
  revert acc. induction ms as [|m ms IH]; intros acc Hall; simpl; [done|].
  rewrite sweep_one_id by (apply Hall; left).
  apply IH. intros m' ?. apply Hall. by right.
Qed.

Lemma sweep_all_table clock ids ms acc :
  mappings (doc (fold_left (sweep_one clock ids) ms acc).2)
  = filter (λ kv, kv.1 ∉ uuid <$> filter (λ m, reminder_id m ∉ ids) ms)
      (mappings (doc acc.2)).
Proof.
  revert acc. induction ms as [|m ms IH]; intros acc; simpl.
  - symmetry. induction (mappings (doc acc.2)) as [|kv d IHd]; [done|].
    rewrite filter_cons_True by apply not_elem_of_nil. by rewrite IHd.
  - rewrite IH. destruct (decide (reminder_id m ∉ ids)) as [Hnin|Hin].
    + rewrite sweep_one_table by done. unfold dict_del.
      rewrite list_filter_filter, filter_cons_True by done.
      apply list_filter_iff. intros kv. rewrite fmap_cons, not_elem_of_cons.
      tauto.
    + rewrite filter_cons_False by done.
      apply dec_stable in Hin. by rewrite sweep_one_id.
Qed.

Lemma sweep_all_store clock ids ms acc :
  store_le acc.1 (fold_left (sweep_one clock ids) ms acc).1
  ∧ (∀ m, m ∈ ms → reminder_id m ∉ ids → is_Some (tasks acc.1 !! uuid m) →
       ∃ t', tasks (fold_left (sweep_one clock ids) ms acc).1 !! uuid m = Some t'
             ∧ t_status t' = "deleted").
Proof.
  revert acc. induction ms as [|m0 ms IH]; intros acc; simpl.
  - split; [apply store_le_refl|]. intros m Hin. by apply elem_of_nil in Hin.
  - destruct (sweep_one_store clock ids acc m0) as [Hle1 Hdel1].
    destruct (IH (sweep_one clock ids acc m0)) as [Hle Hdel].
    split; [by eapply store_le_trans|].
    intros m Hin Hnin [t Ht]. apply elem_of_cons in Hin as [->|Hin].
    + destruct Hdel1 as (t1 & Ht1 & Hd1); [done | by eexists |].
      destruct (Hle _ _ Ht1) as (t2 & Ht2 & Hd2). eauto.
    + destruct (Hle1 _ _ Ht) as (t1 & Ht1 & _). apply Hdel; [done | done |].
      by eexists.
Qed.

Lemma check_deleted_unfold clock (rs : list Reminder) tw st :
  check_deleted_reminders clock rs tw st
  = fold_left (sweep_one clock (snapshot_ids rs)) (all_mappings st) (tw, st).
Proof. done. Qed.

(** After the sweep every mapping left is for an identifier of the snapshot. *)
Lemma sweep_leaves_snapshot_ids clock (rs : list Reminder) tw st kv :
  keyed (mappings (doc st)) →
  kv ∈ mappings (doc (check_deleted_reminders clock rs tw st).2) →
  kv ∈ mappings (doc st) ∧ reminder_id kv.2 ∈ snapshot_ids rs.
Proof.
  intros Hk. rewrite check_deleted_unfold, sweep_all_table. simpl.
  rewrite list_elem_of_filter. intros [Hnot Hin]. split; [done|].
  destruct (decide (reminder_id kv.2 ∈ snapshot_ids rs)) as [|Hnin]; [done|].
  exfalso. apply Hnot. apply list_elem_of_fmap. exists kv.2. split.
  - unfold keyed in Hk. rewrite Forall_forall in Hk. symmetry. by apply Hk.
  - apply list_elem_of_filter. split; [done|].
    unfold all_mappings. by apply list_elem_of_fmap_2.
Qed.



End Sweep.

(** ** Running the Reconciler twice *)

Section Idempotence.
Context `{PF : Platform} `{BE : !Backend}.

End Idempotence.


(** In that run the first record differs from its task in nothing, so no
    command is sent for it and only its fingerprint is stored; the second
    record is known, its task is gone, and [get] raises. *)
Example twice_example :
  let rs := [Demo.milk (Some "2024-01-03T00:00:00Z") false; Demo.bread] in
  let start := (Demo.one_task "pending",
                set_mapping Demo.one_mapping Demo.tea_mapping) in
  let once := reconcile (BE := Demo.strict) Demo.clock rs start in
  journal once.1 = []
  ∧ tasks once.1 = tasks start.1
  ∧ mappings (doc once.2)
    = [("u1", {| uuid := "u1"; reminder_id := "R1";
                 tw_modified := "2024-01-01T00:00:05+00:00";
                 reminder_modified := "2024-01-03T00:00:00Z" |});
       ("u2", Demo.tea_mapping)].
Proof. repeat split; reflexivity. Qed.


(** The table has to be keyed as well.  On a misfiled table the first run
    completes the task and writes the mapping under the uuid; the scan of the
    second run finds the stale entry again, with the old fingerprint, and the
    mapping is written a second time, now with the modification time the
    completion has left. *)
Example misfiled_table_is_not_settled :
  let rs := [Demo.milk (Some "2024-01-03T00:00:00Z") true; Demo.bread] in
  let start := (Demo.one_task "pending", Demo.misfiled) in
  let once := reconcile (BE := Demo.strict) Demo.clock rs start in
  let twice := reconcile (BE := Demo.strict) Demo.clock rs once in
  NoDup (r_identifier <$> rs)
  ∧ NoDup (dict_keys (mappings (doc Demo.misfiled)))
  ∧ ¬ keyed (mappings (doc Demo.misfiled))
  ∧ (tw_modified <$> get_by_uuid once.2 "u1") = Some "2024-01-01T00:00:05+00:00"
  ∧ (tw_modified <$> get_by_uuid twice.2 "u1") = Some "2024-02-01T10:00:00+00:00"
  ∧ twice ≠ once.
Proof.
  cbv zeta. split; [|split; [|split; [|split; [|split]]]].
  - cbn. apply NoDup_cons. split; [|apply NoDup_singleton].
    intros Hin. apply list_elem_of_singleton in Hin. discriminate.
  - cbn. apply NoDup_cons. split; [|apply NoDup_singleton].
    intros Hin. apply list_elem_of_singleton in Hin. discriminate.
  - intros Hk. apply Forall_cons in Hk as [Hk _]. discriminate.
  - reflexivity.
  - reflexivity.
  - intros Heq.
    apply (f_equal (λ acc, tw_modified <$> get_by_uuid acc.2 "u1")) in Heq.
    vm_compute in Heq. discriminate.
Qed.

(** ** Deletion propagation, and a failed export *)

Section Deletion.
Context `{PF : Platform} `{BE : !Backend}.

(** The pass of a record leaves alone the mapping of another identifier whose
    task is in the store. *)
Lemma pass_keeps_entry r acc acc' k m :
  pass r acc acc' → table_ok (mappings (doc acc.2)) →
  (k, m) ∈ mappings (doc acc.2) → reminder_id m ≠ r_identifier r →
  is_Some (tasks acc.1 !! k) →
  (k, m) ∈ mappings (doc acc'.2).
Proof.
  intros Hp Hok Hin Hne [t Ht].
  assert (Hkey : ∀ m0,
    scan_reminder_id (r_identifier r) (mappings (doc acc.2)) = Some m0 →
    k ≠ uuid m0).
  { intros m0 Hs ->. destruct (scan_key _ _ _ Hok Hs) as (Hr & _ & Hget).
    destruct Hok as [_ Hn].
    rewrite (dict_get_elem_NoDup _ _ _ Hn Hin) in Hget. congruence. }
  destruct Hp as [-> _|u m1 t' _ Hnone _ _ _ _ -> _|m0 m1 t0 t' Hs _ _ _ _ -> _ _
                 |m0 Hs _ _ -> _].
  - done.
  - apply elem_of_dict_set_ne; [done | congruence].
  - apply elem_of_dict_set_ne; [done | by apply Hkey].
  - apply elem_of_dict_del. split; [by apply Hkey | done].
Qed.

Lemma loop_keeps_entry clock (rs : list Reminder) acc k m :
  table_ok (mappings (doc acc.2)) →
  (k, m) ∈ mappings (doc acc.2) →
  reminder_id m ∉ snapshot_ids rs →
  is_Some (tasks acc.1 !! k) →
  let acc' := fold_left (sync_one clock) rs acc in
  table_ok (mappings (doc acc'.2))
  ∧ (k, m) ∈ mappings (doc acc'.2) ∧ is_Some (tasks acc'.1 !! k).
Proof.
  revert acc. induction rs as [|r0 rs IH]; intros acc Hok Hin Hnin Hsome; simpl.
  - done.
  - assert (Hp := sync_one_pass clock r0 acc).
    unfold snapshot_ids in Hnin. rewrite fmap_cons, list_to_set_cons in Hnin.
    apply not_elem_of_union in Hnin as [Hne Hnin].
    apply not_elem_of_singleton in Hne.
    apply IH.
    + by eapply pass_table_ok.
    + by eapply pass_keeps_entry.
    + done.
    + destruct Hsome as [t Ht].
      destruct (pass_store_le _ _ _ Hp _ _ Ht) as (t' & -> & _). by eexists.
Qed.

Lemma loop_table_ok clock (rs : list Reminder) acc :
  table_ok (mappings (doc acc.2)) →
  table_ok (mappings (doc (fold_left (sync_one clock) rs acc).2)).
Proof.
  revert acc. induction rs as [|r0 rs IH]; intros acc Hok; simpl; [done|].
  apply IH. eapply pass_table_ok; [apply sync_one_pass | done].
Qed.

(** C2. After a run of the Reconciler from a well-formed table (a dict whose
    entries sit under their own uuid, as in every reachable state and after
    every pass of the loop), no mapping is left whose remote identifier is
    absent from the snapshot; and for every mapping of the starting state
    with such an identifier, the mapping is gone whether or not its task
    exists, and its task, if the store had it, is now marked deleted. *)
Theorem deletion_propagates clock (rs : list Reminder) tw st :
  table_ok (mappings (doc st)) →
  let final := reconcile clock rs (tw, st) in
  (∀ kv, kv ∈ mappings (doc final.2) → reminder_id kv.2 ∈ snapshot_ids rs)
  ∧ (∀ k m, (k, m) ∈ mappings (doc st) → reminder_id m ∉ snapshot_ids rs →
       ((k, m) ∉ mappings (doc final.2))
       ∧ (∀ t, tasks tw !! k = Some t →
            ∃ t', tasks final.1 !! k = Some t' ∧ t_status t' = "deleted")).
Proof.
  intros Hok final. unfold final, reconcile.
  set (acc1 := fold_left (sync_one clock) rs (tw, st)).
  assert (Hok1 : table_ok (mappings (doc acc1.2))) by by apply loop_table_ok.
  assert (Hleft : ∀ kv,
    kv ∈ mappings (doc (check_deleted_reminders clock rs acc1.1 acc1.2).2) →
    reminder_id kv.2 ∈ snapshot_ids rs).
  { intros kv Hkv. destruct Hok1 as [Hk1 _].
    by destruct (sweep_leaves_snapshot_ids clock rs acc1.1 acc1.2 kv Hk1 Hkv). }
  split; [done|]. intros k m Hin Hnin. split.
  - intros Hfin. by apply Hleft in Hfin.
  - intros t Ht.
    destruct (loop_keeps_entry clock rs (tw, st) k m Hok Hin Hnin)
      as (_ & Hin1 & Hsome1); [by eexists|]. fold acc1 in Hin1, Hsome1.
    rewrite check_deleted_unfold.
    destruct (sweep_all_store clock (snapshot_ids rs) (all_mappings acc1.2)
                (acc1.1, acc1.2)) as [_ Hdel].
    assert (Hkm : uuid m = k).
    { destruct Hok as [Hk _]. unfold keyed in Hk. rewrite Forall_forall in Hk.
      apply (Hk _ Hin). }
    rewrite <- Hkm. apply Hdel; [|done|by rewrite Hkm].
    unfold all_mappings. apply list_elem_of_fmap. by exists (k, m).
Qed.

(** C3, amended. When the export exits with a non-zero status,
    [fetch_reminders] returns the empty list and the run is the run on an
    empty snapshot: the sweep is not skipped.  From a keyed table it removes
    every mapping and marks deleted every mapped task that the store has. *)
Theorem failed_export_runs_the_sweep lock_free state_file run clock today tw :
  returncode run ≠ 0%Z →
  fetch_reminders run = Ok []
  ∧ main lock_free state_file run clock today tw
    = main lock_free state_file {| returncode := 0; stdout := Some [] |}
        clock today tw
  ∧ (∀ st, SyncState.init state_file = Loaded st →
           keyed (mappings (doc st)) →
           ∃ tw' st',
             main true state_file run clock today tw = Completed tw' st'
             ∧ mappings (doc st') = []
             ∧ ∀ k m t, (k, m) ∈ mappings (doc st) → tasks tw !! k = Some t →
                 ∃ t', tasks tw' !! k = Some t' ∧ t_status t' = "deleted").
Proof.
  intros Hrc.
  assert (Hfetch : fetch_reminders run = Ok []).
  { unfold fetch_reminders. by rewrite bool_decide_true. }
  split; [done|]. split.
  - unfold main. by rewrite Hfetch.
  - intros st Hinit Hk. unfold main. rewrite Hinit, Hfetch.
    unfold reconcile. simpl fold_left. cbn [fst snd].
    destruct (check_deleted_reminders clock [] tw st) as [tw' st'] eqn:Hsweep.
    exists tw', (update_last_sync today st'). split; [done|].
    rewrite check_deleted_unfold in Hsweep.
    assert (Htable := sweep_all_table clock (snapshot_ids []) (all_mappings st) (tw, st)).
    destruct (sweep_all_store clock (snapshot_ids []) (all_mappings st) (tw, st))
      as [_ Hdel].
    rewrite Hsweep in Htable, Hdel. simpl in Htable, Hdel. split.
    + simpl. rewrite Htable.
      unfold keyed in Hk. rewrite Forall_forall in Hk.
      destruct (filter _ (mappings (doc st))) as [|kv l] eqn:Hf; [done|].
      assert (Hkv : kv ∈ kv :: l) by left. rewrite <- Hf in Hkv.
      apply list_elem_of_filter in Hkv as [Hnot Hkv]. exfalso. apply Hnot.
      apply list_elem_of_fmap. exists kv.2. split; [symmetry; by apply Hk|].
      apply list_elem_of_filter. split; [apply not_elem_of_empty|].
      unfold all_mappings. by apply list_elem_of_fmap_2.
    + intros k m t Hin Ht.
      unfold keyed in Hk. rewrite Forall_forall in Hk.
      assert (Hkm : uuid m = k) by apply (Hk _ Hin).
      rewrite <- Hkm. apply Hdel.
      * unfold all_mappings. apply list_elem_of_fmap. by exists (k, m).
      * apply not_elem_of_empty.
      * rewrite Hkm. by eexists.
Qed.
End Deletion.

(** A snapshot that lists only ["R2"], against a mapping for ["R1"] whose
    task is pending. *)
Lemma deletion_propagates_witness :
  let final := reconcile (BE := Demo.strict) Demo.clock [Demo.bread]
                 (Demo.one_task "pending", Demo.one_mapping) in
  (∀ kv, kv ∈ mappings (doc final.2) →
         reminder_id kv.2 ∈ snapshot_ids [Demo.bread])
  ∧ (∀ k m, (k, m) ∈ mappings (doc Demo.one_mapping) →
       reminder_id m ∉ snapshot_ids [Demo.bread] →
       ((k, m) ∉ mappings (doc final.2))
       ∧ (∀ t, tasks (Demo.one_task "pending") !! k = Some t →
            ∃ t', tasks final.1 !! k = Some t' ∧ t_status t' = "deleted")).
Proof.
  apply (deletion_propagates (BE := Demo.strict) Demo.clock [Demo.bread]
           (Demo.one_task "pending") Demo.one_mapping).
  split.
  - constructor; [reflexivity | constructor].
  - apply NoDup_singleton.
Defined.

Example deletion_example :
  let final := reconcile (BE := Demo.strict) Demo.clock [Demo.bread]
                 (Demo.one_task "pending", Demo.one_mapping) in
  journal final.1 = [CmdAdd "0"; CmdDelete "u1"]
  ∧ dict_keys (mappings (doc final.2)) = ["0"]
  ∧ @t_status Demo.platform <$> (tasks final.1 !! "u1") = Some "deleted".
Proof. repeat split; reflexivity. Qed.

(** C3, as stated, fails: the export exits with status 1, and the run removes
    the only mapping and deletes its task, as it would had the remote side
    been empty. *)
Lemma failed_export_deletes_everything :
  ∃ tw' st',
    main (BE := Demo.strict) true Demo.versioned_file Demo.export_failed
      Demo.clock "2024-02-01T10:00:00" (Demo.one_task "pending")
    = Completed tw' st'
    ∧ SyncState.init Demo.versioned_file = Loaded Demo.one_mapping
    ∧ mappings (doc st') = []
    ∧ @t_status Demo.platform <$> (tasks tw' !! "u1") = Some "deleted"
    ∧ journal tw' = [CmdDelete "u1"].
Proof. eexists _, _. split; [reflexivity|]. repeat split; reflexivity. Qed.

Lemma failed_export_runs_the_sweep_witness :
  fetch_reminders Demo.export_failed = Ok []
  ∧ main (BE := Demo.strict) true Demo.versioned_file Demo.export_failed
      Demo.clock "2024-02-01T10:00:00" (Demo.one_task "pending")
    = main (BE := Demo.strict) true Demo.versioned_file
        {| returncode := 0; stdout := Some [] |}
        Demo.clock "2024-02-01T10:00:00" (Demo.one_task "pending")
  ∧ (∀ st, SyncState.init Demo.versioned_file = Loaded st →
           keyed (mappings (doc st)) →
           ∃ tw' st',
             main (BE := Demo.strict) true Demo.versioned_file Demo.export_failed
               Demo.clock "2024-02-01T10:00:00" (Demo.one_task "pending")
             = Completed tw' st'
             ∧ mappings (doc st') = []
             ∧ ∀ k m t, (k, m) ∈ mappings (doc st) →
                 tasks (Demo.one_task "pending") !! k = Some t →
                 ∃ t', tasks tw' !! k = Some t' ∧ t_status t' = "deleted").
Proof.
  apply (failed_export_runs_the_sweep (BE := Demo.strict) true
           Demo.versioned_file Demo.export_failed Demo.clock
           "2024-02-01T10:00:00" (Demo.one_task "pending")).
  vm_compute. discriminate.
Defined.

(** ** The propagator: local create *)

(** C6, as stated, fails: after a successful create the mapping written has
    an empty remote fingerprint. *)
Lemma create_leaves_remote_fingerprint_empty :
  ∃ state m,
    (OnAdd.main (Demo.hook_task "pending" None None)
       (Exited 0 (Some (Some "R9"))) None).2 = Some state
    ∧ dict_get "u1" (mappings state) = Some m
    ∧ reminder_modified m = "".
Proof. eexists _, _. by vm_compute. Qed.

(** C6, amended. When the task has no remote identifier and the create call
    returns one, the hook prints the task with that identifier and writes a
    mapping under the task's uuid whose local fingerprint is the task's
    [modified] (else its [entry], else empty) and whose remote fingerprint
    is the empty string; the other mappings stay. *)
Theorem create_stores_mapping task run file rid :
  truthy_get (h_reminder_id task) = false →
  OnAdd.create_reminder task run = Some rid →
  rid ≠ "" →
  ∃ state,
    OnAdd.main task run file = (with_reminder_id rid task, Some state)
    ∧ dict_get (h_uuid task) (mappings state)
      = Some {| uuid := h_uuid task;
                reminder_id := rid;
                tw_modified := match h_modified task with
                               | Some m => m
                               | None => default "" (h_entry task)
                               end;
                reminder_modified := "" |}
    ∧ (∀ k, k ≠ h_uuid task →
         dict_get k (mappings state)
         = dict_get k (mappings (default empty_doc file))).
Proof.
  intros Hno Hcreate Hrid. unfold OnAdd.main.
  rewrite Hno, Hcreate. unfold truthy_str. rewrite bool_decide_true by done.
  eexists. split; [reflexivity|]. simpl. split.
  - apply dict_get_set_eq.
  - intros k Hk. by apply dict_get_set_ne.
Qed.

Lemma create_stores_mapping_witness :
  ∃ state,
    OnAdd.main (Demo.hook_task "pending" None None)
      (Exited 0 (Some (Some "R9"))) (Some Demo.one_mapping_doc)
    = (with_reminder_id "R9" (Demo.hook_task "pending" None None), Some state)
    ∧ dict_get "u1" (mappings state)
      = Some {| uuid := "u1"; reminder_id := "R9";
                tw_modified := "20240101T000005Z";
                reminder_modified := "" |}
    ∧ (∀ k, k ≠ "u1" →
         dict_get k (mappings state)
         = dict_get k (mappings Demo.one_mapping_doc)).
Proof.
  apply (create_stores_mapping (Demo.hook_task "pending" None None)
           (Exited 0 (Some (Some "R9"))) (Some Demo.one_mapping_doc) "R9").
  - reflexivity.
  - reflexivity.
  - discriminate.
Defined.

(** ** The propagator: local delete and local modify *)

(** C8. A modified task whose status is [deleted] and for which the state
    file holds a mapping (with a remote identifier): whatever the agent's
    [delete] call reports ([run] is arbitrary: success, failure, time-out),
    the hook makes exactly that call and the state file written no longer
    has a mapping under the task's uuid; the other mappings stay. *)
Theorem local_delete_drops_mapping original modified run state mapping :
  dict_get (h_uuid modified) (mappings state) = Some mapping →
  reminder_id mapping ≠ "" →
  h_status modified = Some "deleted" →
  ∃ rid state',
    OnModify.main original modified run (Some state)
      = ([OnModify.CallDelete rid], Some state', modified)
    ∧ rid = (if truthy_get (h_reminder_id modified)
             then default "" (h_reminder_id modified)
             else reminder_id mapping)
    ∧ dict_get (h_uuid modified) (mappings state') = None
    ∧ (∀ k, k ≠ h_uuid modified →
            dict_get k (mappings state') = dict_get k (mappings state))
    ∧ last_sync state' = last_sync state.
Proof.
  intros Hget Hrid Hdel.
  unfold OnModify.main, OnModify.get_reminder_id. rewrite Hget.
  assert (Hhas : dict_has (h_uuid modified) (mappings state) = true).
  { apply dict_has_get. by rewrite Hget. }
  destruct (truthy_get (h_reminder_id modified)) eqn:Hudf.
  - destruct (h_reminder_id modified) as [rid|] eqn:Hr; [|done].
    simpl in Hudf. rewrite Hudf. rewrite bool_decide_true by done.
    unfold OnModify.remove_from_sync_state. rewrite Hhas.
    eexists _, _. split; [reflexivity|]. simpl.
    split; [done|]. split; [apply dict_get_del_eq|].
    split; [|done]. intros k Hk. by apply dict_get_del_ne.
  - unfold truthy_str. rewrite bool_decide_true by done.
    rewrite bool_decide_true by done.
    unfold OnModify.remove_from_sync_state. rewrite Hhas.
    eexists _, _. split; [reflexivity|]. simpl.
    split; [done|]. split; [apply dict_get_del_eq|].
    split; [|done]. intros k Hk. by apply dict_get_del_ne.
Qed.

(** A failed [delete] call (exit status 1). *)
Lemma local_delete_drops_mapping_witness :
  ∃ rid state',
    OnModify.main (Demo.hook_task "pending" None None)
      (Demo.hook_task "deleted" None None) (Exited 1 None)
      (Some Demo.one_mapping_doc)
      = ([OnModify.CallDelete rid], Some state', Demo.hook_task "deleted" None None)
    ∧ rid = "R1"
    ∧ dict_get "u1" (mappings state') = None
    ∧ (∀ k, k ≠ "u1" →
            dict_get k (mappings state') = dict_get k (mappings Demo.one_mapping_doc))
    ∧ last_sync state' = last_sync Demo.one_mapping_doc.
Proof.
  apply (local_delete_drops_mapping (Demo.hook_task "pending" None None)
           (Demo.hook_task "deleted" None None) (Exited 1 None)
           Demo.one_mapping_doc Demo.milk_mapping).
  - reflexivity.
  - vm_compute. discriminate.
  - reflexivity.
Defined.

(** [task.get("due") or ""] *)
Lemma due_or_empty (o : option string) :
  (if truthy_get o then default "" o else "") = default "" o.
Proof.
  destruct o as [s|]; simpl; [|done].
  unfold truthy_str. case_bool_decide as Hs; [done|].
  by subst.
Qed.

(** C7. A modified task that is not deleted and has a mapping: the payload
    of the [update] call holds the title, the priority and the due date
    exactly when that field differs between the original and the modified
    task, and the completion boolean exactly when one of the two is completed
    and the other is not (every status but [completed] counts as pending
    here); when none of the four differs no call is made; and
    when only the due date differs the payload is the identifier and the due
    date. *)
Theorem modify_sends_minimal_diff original modified run state mapping :
  dict_get (h_uuid modified) (mappings state) = Some mapping →
  reminder_id mapping ≠ "" →
  h_status modified ≠ Some "deleted" →
  ∃ rid,
    let d := OnModify.build_update_data rid modified original in
    let calls := (OnModify.main original modified run (Some state)).1.1 in
    rid ≠ ""
    ∧ OnModify.u_identifier d = rid
    ∧ OnModify.u_title d
      = (if bool_decide (h_description modified = h_description original)
         then None else Some (default "" (h_description modified)))
    ∧ OnModify.u_priority d
      = (if bool_decide (h_priority modified = h_priority original)
         then None else Some (map_priority_to_reminder (h_priority modified)))
    ∧ OnModify.u_due_date d
      = (if bool_decide (h_due modified = h_due original)
         then None else Some (default "" (h_due modified)))
    ∧ OnModify.u_is_completed d
      = (if bool_decide (completed modified = completed original)
         then None else Some (completed modified))
    ∧ calls
      = (if bool_decide (h_description modified = h_description original
                         ∧ h_priority modified = h_priority original
                         ∧ h_due modified = h_due original
                         ∧ completed modified = completed original)
         then [] else [OnModify.CallUpdate d])
    ∧ (h_description modified = h_description original →
       h_priority modified = h_priority original →
       completed modified = completed original →
       h_due modified ≠ h_due original →
       calls = [OnModify.CallUpdate
                  {| OnModify.u_identifier := rid;
                     OnModify.u_title := None;
                     OnModify.u_priority := None;
                     OnModify.u_due_date := Some (default "" (h_due modified));
                     OnModify.u_is_completed := None |}]).
Proof.
  intros Hget Hrid Hnot.
  set (rid := if truthy_get (h_reminder_id modified)
              then default "" (h_reminder_id modified)
              else reminder_id mapping).
  assert (Hres : (if truthy_get (h_reminder_id modified)
                  then h_reminder_id modified
                  else OnModify.get_reminder_id (h_uuid modified) (Some state))
                 = Some rid ∧ truthy_str rid = true).
  { unfold rid, OnModify.get_reminder_id. rewrite Hget.
    destruct (h_reminder_id modified) as [r|]; simpl.
    - destruct (truthy_str r) eqn:Hr; [done|].
      split; [done|]. by apply bool_decide_eq_true.
    - split; [done|]. by apply bool_decide_eq_true. }
  destruct Hres as [Hres Htruthy].
  exists rid. cbv zeta.
  assert (Hmain : (OnModify.main original modified run (Some state)).1.1
                  = (OnModify.update_reminder rid modified original run).1).
  { unfold OnModify.main. rewrite Hres, Htruthy.
    by rewrite bool_decide_false. }
  rewrite Hmain. clear Hmain Hres.
  assert (Ht : OnModify.u_title (OnModify.build_update_data rid modified original)
      = (if bool_decide (h_description modified = h_description original)
         then None else Some (default "" (h_description modified)))).
  { simpl. by repeat case_bool_decide. }
  assert (Hp : OnModify.u_priority (OnModify.build_update_data rid modified original)
      = (if bool_decide (h_priority modified = h_priority original)
         then None else Some (map_priority_to_reminder (h_priority modified)))).
  { simpl. by repeat case_bool_decide. }
  assert (Hd : OnModify.u_due_date (OnModify.build_update_data rid modified original)
      = (if bool_decide (h_due modified = h_due original)
         then None else Some (default "" (h_due modified)))).
  { simpl. rewrite due_or_empty. by repeat case_bool_decide. }
  assert (Hc : OnModify.u_is_completed (OnModify.build_update_data rid modified original)
      = (if bool_decide (completed modified = completed original)
         then None else Some (completed modified))).
  { simpl. unfold completed.
    destruct (decide (h_status modified = Some "completed")) as [Hm|Hm];
      destruct (decide (h_status original = Some "completed")) as [Ho|Ho];
      repeat (first [rewrite (bool_decide_true (_ = Some "completed")) by done
                    |rewrite (bool_decide_false (_ = Some "completed")) by done
                    |rewrite (bool_decide_true (_ ≠ Some "completed")) by done
                    |rewrite (bool_decide_false (_ ≠ Some "completed")) by (by intros ?)]);
      simpl; by repeat case_bool_decide. }
  assert (Hcalls : (OnModify.update_reminder rid modified original run).1
      = (if bool_decide (h_description modified = h_description original
                         ∧ h_priority modified = h_priority original
                         ∧ h_due modified = h_due original
                         ∧ completed modified = completed original)
         then [] else [OnModify.CallUpdate (OnModify.build_update_data rid modified original)])).
  { unfold OnModify.update_reminder, OnModify.len.
    rewrite Ht, Hp, Hd, Hc.
    repeat case_bool_decide; simpl in *; try done; try lia; intuition congruence. }
  split; [by apply bool_decide_eq_true in Htruthy|].
  split; [done|]. split; [done|]. split; [done|]. split; [done|].
  split; [done|]. split; [done|].
  intros H1 H2 H3 H4. rewrite Hcalls.
  case_bool_decide as Hall; [destruct Hall as (?&?&?&?); congruence|].
  do 2 f_equal.
  assert (Hi : OnModify.u_identifier
                 (OnModify.build_update_data rid modified original) = rid)
    by done.
  rewrite (bool_decide_true _ H1) in Ht. rewrite (bool_decide_true _ H2) in Hp.
  rewrite (bool_decide_true _ H3) in Hc. rewrite (bool_decide_false _ H4) in Hd.
  destruct (OnModify.build_update_data rid modified original).
  simpl in Hi, Ht, Hp, Hd, Hc. by subst.
Qed.

Lemma modify_sends_minimal_diff_witness :
  ∃ rid,
    let original := Demo.hook_task "pending" (Some "20240101T000000Z") None in
    let modified := Demo.hook_task "pending" (Some "20240301T000000Z") None in
    let d := OnModify.build_update_data rid modified original in
    let calls := (OnModify.main original modified (Exited 0 None)
                    (Some Demo.one_mapping_doc)).1.1 in
    rid ≠ ""
    ∧ OnModify.u_identifier d = rid
    ∧ OnModify.u_title d
      = (if bool_decide (h_description modified = h_description original)
         then None else Some (default "" (h_description modified)))
    ∧ OnModify.u_priority d
      = (if bool_decide (h_priority modified = h_priority original)
         then None else Some (map_priority_to_reminder (h_priority modified)))
    ∧ OnModify.u_due_date d
      = (if bool_decide (h_due modified = h_due original)
         then None else Some (default "" (h_due modified)))
    ∧ OnModify.u_is_completed d
      = (if bool_decide (completed modified = completed original)
         then None else Some (completed modified))
    ∧ calls
      = (if bool_decide (h_description modified = h_description original
                         ∧ h_priority modified = h_priority original
                         ∧ h_due modified = h_due original
                         ∧ completed modified = completed original)
         then [] else [OnModify.CallUpdate d])
    ∧ (h_description modified = h_description original →
       h_priority modified = h_priority original →
       completed modified = completed original →
       h_due modified ≠ h_due original →
       calls = [OnModify.CallUpdate
                  {| OnModify.u_identifier := rid;
                     OnModify.u_title := None;
                     OnModify.u_priority := None;
                     OnModify.u_due_date := Some (default "" (h_due modified));
                     OnModify.u_is_completed := None |}]).
Proof.
  apply (modify_sends_minimal_diff
           (Demo.hook_task "pending" (Some "20240101T000000Z") None)
           (Demo.hook_task "pending" (Some "20240301T000000Z") None)
           (Exited 0 None) Demo.one_mapping_doc Demo.milk_mapping).
  - reflexivity.
  - vm_compute. discriminate.
  - vm_compute. discriminate.
Defined.

(** * Further properties of the code *)

(** ** The Mapping Store: lookups after writes *)

Lemma dict_has_del k (d : list (string * SyncMapping)) :
  dict_has k (dict_del k d) = false.
Proof.
  apply not_true_is_false. intros Hhas. apply dict_has_get in Hhas.
  rewrite dict_get_del_eq in Hhas. by destruct Hhas.
Qed.

(** X1. After [set_mapping], a lookup by the mapping's own uuid returns that
    mapping, a lookup by any other uuid returns what it returned before, the
    time of the last sync is kept, and the file has been written once. *)
Theorem upsert_then_get_by_uuid s m :
  get_by_uuid (set_mapping s m) (uuid m) = Some m
  ∧ (∀ u, u ≠ uuid m → get_by_uuid (set_mapping s m) u = get_by_uuid s u)
  ∧ last_sync (doc (set_mapping s m)) = last_sync (doc s)
  ∧ saves (set_mapping s m) = S (saves s).
Proof.
  unfold get_by_uuid. rewrite mappings_set. split; [|split; [|done]].
  - apply dict_get_set_eq.
  - intros u Hu. by apply dict_get_set_ne.
Qed.

Lemma scan_None_rids rid (d : list (string * SyncMapping)) :
  scan_reminder_id rid d = None ↔ rid ∉ reminder_id <$> d.*2.
Proof.
  induction d as [|[k m] d IH]; simpl.
  - split; [intros _; apply not_elem_of_nil | done].
  - rewrite not_elem_of_cons. case_decide as Hr.
    + split; [done | intros [Hne _]; congruence].
    + rewrite IH. split; [intros ?; split; [congruence | done] | by intros [_ ?]].
Qed.

(** X2. A lookup by remote identifier returns a mapping of the table that
    holds that identifier, and returns nothing exactly when the identifier is
    not among [known_reminder_ids]. *)
Theorem get_by_reminder_id_spec s rid :
  (∀ m, get_by_reminder_id s rid = Some m →
        reminder_id m = rid ∧ m ∈ all_mappings s)
  ∧ (get_by_reminder_id s rid = None ↔ rid ∉ known_reminder_ids s).
Proof.
  unfold get_by_reminder_id, known_reminder_ids, all_mappings. split.
  - intros m Hs. apply scan_Some_elem in Hs as [Hr [k Hin]]. split; [done|].
    apply list_elem_of_fmap. by exists (k, m).
  - rewrite scan_None_rids. by rewrite elem_of_list_to_set.
Qed.

(** X3. After [remove_mapping] the uuid has no mapping and every other uuid
    has the one it had; removing twice is removing once; removing a uuid that
    has no mapping changes nothing and writes nothing, removing one that has
    a mapping writes the file once. *)
Theorem remove_mapping_spec s u :
  get_by_uuid (remove_mapping s u) u = None
  ∧ (∀ u', u' ≠ u → get_by_uuid (remove_mapping s u) u' = get_by_uuid s u')
  ∧ remove_mapping (remove_mapping s u) u = remove_mapping s u
  ∧ (get_by_uuid s u = None → remove_mapping s u = s)
  ∧ (is_Some (get_by_uuid s u) → saves (remove_mapping s u) = S (saves s)).
Proof.
  unfold get_by_uuid. rewrite mappings_remove.
  split; [apply dict_get_del_eq|]. split; [intros u' Hu'; by apply dict_get_del_ne|].
  split; [|split].
  - unfold remove_mapping at 1. rewrite mappings_remove.
    by rewrite dict_has_del.
  - intros Hnone. unfold remove_mapping.
    destruct (dict_has u (mappings (doc s))) eqn:Hhas; [|done].
    apply dict_has_get in Hhas. rewrite Hnone in Hhas. by destruct Hhas.
  - intros Hsome. unfold remove_mapping.
    apply dict_has_get in Hsome. by rewrite Hsome.
Qed.

Lemma scan_set_unique m (d : list (string * SyncMapping)) :
  keyed d →
  (∀ kv, kv ∈ d → reminder_id kv.2 = reminder_id m → uuid kv.2 = uuid m) →
  scan_reminder_id (reminder_id m) (dict_set (uuid m) m d) = Some m.
Proof.
  intros Hk. induction Hk as [|[k1 m1] d Hk1 _ IH]; intros Hsame; simpl in *.
  - by rewrite decide_True.
  - destruct (decide (k1 = uuid m)) as [->|Hne]; simpl.
    + by rewrite decide_True.
    + rewrite decide_False.
      * apply IH. intros kv Hin. apply Hsame. by right.
      * intros Hr. apply Hne. rewrite <- Hk1. apply (Hsame (k1, m1)); [left | done].
Qed.

(** X4. In a keyed table where no mapping of another uuid holds the remote
    identifier of [m], a lookup by that identifier after [set_mapping s m]
    returns [m]. *)
Theorem upsert_then_get_by_reminder_id s m :
  keyed (mappings (doc s)) →
  (∀ m', m' ∈ all_mappings s →
         reminder_id m' = reminder_id m → uuid m' = uuid m) →
  get_by_reminder_id (set_mapping s m) (reminder_id m) = Some m.
Proof.
  intros Hk Hsame. unfold get_by_reminder_id. rewrite mappings_set.
  apply scan_set_unique; [done|]. intros kv Hin. apply Hsame.
  unfold all_mappings. by apply list_elem_of_fmap_2.
Qed.

(** ** The table and its document *)
Import Persist.

Lemma as_mapping_asdict m : as_mapping (asdict m) = Some m.
Proof. by destruct m. Qed.

Lemma mapM_asdict (d : list (string * SyncMapping)) :
  mapM (λ kv : string * json, m ← as_mapping kv.2; Some (kv.1, m))
       ((λ kv, (kv.1, asdict kv.2)) <$> d) = Some d.
Proof.
  apply mapM_Some. induction d as [|[k m] d IH]; [constructor|].
  rewrite fmap_cons. constructor; [|done]. by destruct m.
Qed.

(** X5. The document the program keeps for a table decodes to that table:
    the entry [asdict(mapping)] gives back [mapping] when the lookups
    rebuild a [SyncMapping] from it, entry by entry and in the same order,
    and the time of the last sync is kept.  So a state file that [json.loads] parses into
    that document, under any ["version"] value, loads without exception to
    the same table and the same time. *)
Theorem saved_state_loads_back version d :
  as_doc (state_json version d) = Some d
  ∧ _load (Some (Parsed (state_json version d))) = Ok (state_json version d)
  ∧ init (Some (Parsed (state_json version d)))
    = Loaded {| doc := d; saves := 0 |}.
Proof.
  assert (Hdoc : as_doc (state_json version d) = Some d).
  { unfold as_doc, state_json. simpl.
    destruct d as [tbl [ts|]]; simpl; by rewrite mapM_asdict. }
  split; [done|]. split; [done|].
  unfold init.
  change (_load (Some (Parsed (state_json version d))))
    with (Ok (state_json version d)).
  cbv beta iota. by rewrite Hdoc.
Qed.

(** ** Priorities and dates *)

Section Priorities.
Context `{PF : Platform} `{BE : !Backend}.

(** X6. The two priority maps are inverse to each other on the priorities of
    Taskwarrior and on the numbers 0, 1, 5 and 9: local to remote and back is
    the identity on none, H, M and L; the remote number sent is always one of
    0, 1, 5, 9; remote to local and back is the identity exactly on these
    four numbers (any other number reads as no priority and is sent back as
    0). *)
Theorem priority_round_trip :
  (∀ p, tw_priority p →
        map_priority_from_reminder (map_priority_to_reminder p) = p)
  ∧ (∀ p, map_priority_to_reminder p ∈ [0; 1; 5; 9]%Z)
  ∧ (∀ z, map_priority_to_reminder (map_priority_from_reminder z) = z
          ↔ z ∈ [0; 1; 5; 9]%Z)
  ∧ (∀ z, tw_priority (map_priority_from_reminder z)).
Proof.
  split; [|split; [|split]].
  - intros p [-> | [-> | [-> | ->]]]; reflexivity.
  - intros [p|]; simpl; [|repeat constructor].
    repeat case_bool_decide; repeat constructor.
  - intros z. unfold map_priority_from_reminder. split.
    + intros Heq. repeat case_bool_decide; simpl in Heq; subst;
        repeat constructor.
    + intros Hin.
      repeat (apply elem_of_cons in Hin as [->|Hin]; [reflexivity|]).
      by apply elem_of_nil in Hin.
  - intros z. unfold map_priority_from_reminder, tw_priority.
    repeat case_bool_decide; auto.
Qed.

Lemma replace_Z_app a b : replace_Z (a ++ b) = replace_Z a ++ replace_Z b.
Proof.
  induction a as [|c a IH]; simpl; [done|].
  case_decide; simpl; by rewrite IH.
Qed.

Lemma replace_Z_id s : has_Z s = false → replace_Z s = s.
Proof.
  induction s as [|c s IH]; simpl; [done|].
  intros Hz. apply orb_false_iff in Hz as [Hc Hs].
  apply bool_decide_eq_false in Hc. rewrite decide_False by done.
  by rewrite IH.
Qed.

Lemma truthy_app a b : truthy_str b = true → truthy_str (a ++ b) = true.
Proof.
  unfold truthy_str. rewrite !bool_decide_eq_true.
  intros Hb Hab. apply Hb. destruct a; [done | discriminate].
Qed.

(** X7. [parse_date] gives no date for a missing or empty text; a text ending
    in Z is read as the same text ending in +00:00; a non-empty text without
    Z is handed to [fromisoformat] as it is. *)
Theorem parse_date_edges :
  parse_date None = None
  ∧ parse_date (Some "") = None
  ∧ (∀ s, has_Z s = false →
          parse_date (Some (s ++ "Z")) = parse_date (Some (s ++ "+00:00")))
  ∧ (∀ s, has_Z s = false → s ≠ "" → parse_date (Some s) = fromisoformat s).
Proof.
  split; [done|]. split; [done|]. split.
  - intros s Hz. unfold parse_date.
    rewrite !truthy_app by done. rewrite !replace_Z_app.
    by rewrite (replace_Z_id s).
  - intros s Hz Hs. unfold parse_date, truthy_str.
    rewrite bool_decide_true by done. by rewrite replace_Z_id.
Qed.
End Priorities.

(** ** The three other outcomes of one record *)

Section OneRecord.
Context `{PF : Platform} `{BE : !Backend}.

(** X8. A record whose identifier has no mapping.  If it is completed,
    nothing happens.  If it is not and has notes, [save] raises on the
    annotation before any command is sent: no task is created and no mapping
    written, in this run and in every later one.  If it is not, has no notes
    and has a title (Taskwarrior refuses a task without description), one
    task is added under a uuid that neither the store nor the
    table holds (pending, with the record's title, priority, due date and
    identifier) and nothing else in the store changes; the mapping of that
    uuid is written, with the record's modification date ("" if it has none)
    as remote fingerprint; lookups by that uuid and by the record's
    identifier return it, and every other uuid keeps its mapping. *)
Theorem unknown_record_outcome clock reminder tw state :
  get_by_reminder_id state (r_identifier reminder) = None →
  (truthy_flag (r_isCompleted reminder) = true →
   sync_reminder_to_task clock reminder tw state = Ok (tw, state))
  ∧ (truthy_flag (r_isCompleted reminder) = false →
     truthy_get (r_notes reminder) = true →
     sync_reminder_to_task clock reminder tw state = Raise AttributeError
     ∧ sync_one clock (tw, state) reminder = (tw, state))
  ∧ (truthy_flag (r_isCompleted reminder) = false →
     truthy_get (r_notes reminder) = false →
     r_title reminder ≠ "" →
     ∃ u task mapping tw' state',
       sync_reminder_to_task clock reminder tw state = Ok (tw', state')
       ∧ tasks tw !! u = None
       ∧ (u ∉ uuid <$> all_mappings state)
       ∧ tasks tw' = <[u := task]> (tasks tw)
       ∧ journal tw' = (journal tw ++ [CmdAdd u])%list
       ∧ t_description task = r_title reminder
       ∧ t_status task = "pending"
       ∧ t_reminder_id task = Some (r_identifier reminder)
       ∧ t_priority task
         = map_priority_from_reminder (default 0%Z (r_priority reminder))
       ∧ t_due task = parse_date (r_dueDate reminder)
       ∧ t_annotations task = []
       ∧ mapping = {| uuid := u; reminder_id := r_identifier reminder;
                      tw_modified := now clock tw;
                      reminder_modified :=
                        default "" (r_modificationDate reminder) |}
       ∧ get_by_uuid state' u = Some mapping
       ∧ get_by_reminder_id state' (r_identifier reminder) = Some mapping
       ∧ (∀ u', u' ≠ u → get_by_uuid state' u' = get_by_uuid state u')).
Proof.
  intros Hnone. split; [|split].
  - unfold sync_reminder_to_task. rewrite Hnone. by intros ->.
  - intros Hc Hnotes.
    assert (Hraise : sync_reminder_to_task clock reminder tw state
                     = Raise AttributeError).
    { unfold sync_reminder_to_task, save_new. rewrite Hnone, Hc. simpl.
      by rewrite Hnotes. }
    split; [done|]. unfold sync_one. simpl. by rewrite Hraise.
  - intros Hc Hnotes _.
    unfold sync_reminder_to_task, save_new. rewrite Hnone, Hc. simpl.
    rewrite Hnotes. simpl.
    set (u := new_uuid _).
    assert (Hfresh := new_uuid_fresh
              (dom (tasks tw) ∪ list_to_set (uuid <$> all_mappings state))).
    fold u in Hfresh. apply not_elem_of_union in Hfresh as [Hstore Htable].
    eexists u, _, _, _, _. split; [reflexivity|].
    split; [by apply not_elem_of_dom|].
    split; [by rewrite elem_of_list_to_set in Htable|].
    split; [reflexivity|]. split; [reflexivity|].
    do 5 (split; [reflexivity|]).
    split; [simpl; by rewrite Hnotes|]. split; [reflexivity|].
    unfold get_by_uuid, get_by_reminder_id. rewrite mappings_set. simpl.
    split; [apply dict_get_set_eq|]. split.
    + by apply scan_set_new.
    + intros u' Hu'. by apply dict_get_set_ne.
Qed.

Lemma leb_false_of_ltb a b : String.ltb b a = true → String.leb a b = false.
Proof.
  unfold String.ltb, String.leb. rewrite (String.compare_antisym a b).
  destruct (String.compare b a); simpl; congruence.
Qed.

Lemma differs_false new old :
  differs new old = false ↔ same_or_empty old new.
Proof.
  unfold differs, same_or_empty. split.
  - intros Hd. apply andb_false_iff in Hd as [Hd|Hd].
    + apply orb_false_iff in Hd as [? ?]. by right.
    + apply bool_decide_eq_false in Hd. left. symmetry. by apply dec_stable.
  - intros [->|[Ho Hn]].
    + rewrite (bool_decide_false (_ ≠ _)) by (by intros ?).
      apply andb_false_r.
    + by rewrite Ho, Hn.
Qed.

(** What [update_task_from_reminder] and the [save] after it do to a stored
    task, unless [done] refuses.  A completed record on a task that is not:
    the task is completed in the store and nothing else of it changes; the
    object keeps the modification time it was read with.  In every other
    case: if the task carries the record's values already, nothing is sent;
    if not, one [modify] makes it carry them. *)
Lemma update_save_outcome clock u t r tw :
  tasks tw !! u = Some t →
  ¬ (truthy_flag (r_isCompleted r) = true ∧ t_status t = "deleted") →
  ∃ o tw1,
    update_task_from_reminder clock u (loaded t) r tw = Ok (o, tw1)
    ∧ (∀ k, k ≠ u → tasks (save clock tw1 u o).2 !! k = tasks tw !! k)
    ∧ if truthy_flag (r_isCompleted r) && bool_decide (t_status t ≠ "completed")
      then
        tasks (save clock tw1 u o).2 !! u
        = Some (set_modified (Some (now clock tw)) (set_status "completed" t))
        ∧ journal (save clock tw1 u o).2 = (journal tw ++ [CmdDone u])%list
        ∧ t_modified (_data (save clock tw1 u o).1) = t_modified t
      else
        ∃ t', tasks (save clock tw1 u o).2 !! u = Some t'
          ∧ agrees r t t'
          ∧ t_annotations t' = t_annotations t
          ∧ t_reminder_id t' = t_reminder_id t
          ∧ t_loc t' = t_loc t
          ∧ t_modified (_data (save clock tw1 u o).1) = t_modified t'
          ∧ (agrees r t t → (save clock tw1 u o).2 = tw ∧ t' = t)
          ∧ (¬ agrees r t t →
             journal (save clock tw1 u o).2 = (journal tw ++ [CmdModify u])%list
             ∧ t_modified t' = Some (now clock tw)).
Proof.
  intros Ht Hok.
  destruct (update_object clock u t r tw)
    as (o & Horig & Hst & Hd & Hp & Hdue & Hpri & Hmod & Han & Hrid & Hloc & ->).
  destruct (truthy_flag (r_isCompleted r) && bool_decide (t_status t ≠ "completed"))
    eqn:Hdone.
  - apply andb_true_iff in Hdone as [Hc Hs]. apply bool_decide_eq_true in Hs.
    unfold done. rewrite Hst. rewrite bool_decide_false by done.
    rewrite bool_decide_false by (intros Hdel; by apply Hok).
    eexists _, _. split; [reflexivity|].
    unfold save. rewrite modified_loaded. simpl.
    split; [intros k Hk; by rewrite lookup_alter_ne|].
    split; [by rewrite lookup_alter_eq, Ht|]. done.
  - set (o2 := if negb (truthy_flag (r_isCompleted r))
                  && bool_decide (t_status t = "completed")
               then assign (set_status "pending") o else o).
    assert (Hst2 : t_status (_data o2) = status_after r t).
    { unfold o2, status_after.
      destruct (truthy_flag (r_isCompleted r)); simpl.
      - simpl in Hdone. apply bool_decide_eq_false in Hdone.
        rewrite Hst. by apply dec_stable.
      - destruct (bool_decide (t_status t = "completed")); simpl; [done | exact Hst]. }
    assert (Hrest : _original_data o2 = t
                    ∧ t_description (_data o2) = r_title r
                    ∧ t_project (_data o2) = project_after r t
                    ∧ t_due (_data o2) = parse_date (r_dueDate r)
                    ∧ t_priority (_data o2)
                      = map_priority_from_reminder (default 0%Z (r_priority r))
                    ∧ t_modified (_data o2) = t_modified t
                    ∧ t_annotations (_data o2) = t_annotations t
                    ∧ t_reminder_id (_data o2) = t_reminder_id t
                    ∧ t_loc (_data o2) = t_loc t).
    { unfold o2. by destruct (negb _ && _). }
    destruct Hrest as (Horig2 & Hd2 & Hp2 & Hdue2 & Hpri2 & Hmod2 & Han2 & Hrid2 & Hloc2).
    assert (Hagree : ∀ t', t_description t' = t_description (_data o2) →
              t_project t' = t_project (_data o2) →
              t_due t' = t_due (_data o2) →
              t_priority t' = t_priority (_data o2) →
              t_status t' = t_status (_data o2) → agrees r t t').
    { intros t' H1 H2 H3 H4 H5. unfold agrees.
      rewrite H1, H2, H3, H4, H5, Hd2, Hp2, Hdue2, Hpri2, Hst2.
      split; [done|]. split; [by left|]. split; [done|]. split; [by left | done]. }
    assert (Hmodified : modified o2 = false ↔ agrees r t t).
    { unfold modified, agrees. rewrite Horig2, Hd2, Hp2, Hdue2, Hpri2, Hst2.
      rewrite !orb_false_iff, !differs_false, !bool_decide_eq_false.
      split.
      - intros ((((H1 & H2) & H3) & H4) & H5).
        split; [symmetry; by apply dec_stable|]. split; [done|].
        split; [symmetry; by apply dec_stable|]. split; [done|].
        symmetry; by apply dec_stable.
      - intros (H1 & H2 & H3 & H4 & H5).
        repeat split; try done; intros Hne; by apply Hne. }
    exists o2, tw. split; [unfold o2; by destruct (negb _ && _)|].
    unfold save. destruct (modified o2) eqn:Hm; simpl.
    + split; [intros k Hk; by rewrite lookup_insert_ne|].
      eexists. split; [apply lookup_insert_eq|].
      split; [by apply Hagree|]. split; [done|]. split; [done|].
      split; [done|]. split; [done|]. split.
      * intros Ha. apply Hmodified in Ha. congruence.
      * done.
    + split; [done|]. exists t. split; [done|].
      split; [by apply Hmodified|].
      split; [done|]. split; [done|]. split; [done|]. split; [done|].
      split; [by destruct tw|]. intros Hna. exfalso. apply Hna.
      by apply Hmodified.
Qed.

(** X9. A record with a title and a mapping, whose task is in the store and
    whose modification date is strictly greater than the stored remote
    fingerprint (the case left when the record is not completed, or the task
    not deleted) is never skipped: the mapping gets the record's modification
    date as remote fingerprint, and no other task and no other mapping
    changes.  If the record is completed and the task is not, the task is
    completed by one [done] command and nothing else of it changes: the
    record's title, list, due date and priority are not applied, and the
    mapping keeps the modification time the task was read with.  Otherwise,
    when the task carries the record's values already, no command is sent
    and the task stays as it is; when it does not, one [modify] command makes
    it carry them, its annotations, remote identifier and location being
    kept, and the mapping gets the task's new modification time. *)
Theorem newer_record_is_applied clock reminder tw state mapping task :
  get_by_reminder_id state (r_identifier reminder) = Some mapping →
  tasks tw !! uuid mapping = Some task →
  String.ltb (reminder_modified mapping)
             (default "" (r_modificationDate reminder)) = true →
  ¬ (truthy_flag (r_isCompleted reminder) = true ∧ t_status task = "deleted") →
  r_title reminder ≠ "" →
  ∃ tw' state' stamp,
    sync_reminder_to_task clock reminder tw state = Ok (tw', state')
    ∧ get_by_uuid state' (uuid mapping)
      = Some {| uuid := uuid mapping; reminder_id := reminder_id mapping;
                tw_modified := stamp;
                reminder_modified := default "" (r_modificationDate reminder) |}
    ∧ (∀ u, u ≠ uuid mapping → get_by_uuid state' u = get_by_uuid state u)
    ∧ (∀ u, u ≠ uuid mapping → tasks tw' !! u = tasks tw !! u)
    ∧ if truthy_flag (r_isCompleted reminder)
         && bool_decide (t_status task ≠ "completed")
      then
        tasks tw' !! uuid mapping
        = Some (set_modified (Some (now clock tw)) (set_status "completed" task))
        ∧ journal tw' = (journal tw ++ [CmdDone (uuid mapping)])%list
        ∧ stamp = default "" (t_modified task)
      else
        ∃ task', tasks tw' !! uuid mapping = Some task'
          ∧ agrees reminder task task'
          ∧ t_annotations task' = t_annotations task
          ∧ t_reminder_id task' = t_reminder_id task
          ∧ t_loc task' = t_loc task
          ∧ stamp = default "" (t_modified task')
          ∧ (agrees reminder task task → tw' = tw ∧ task' = task)
          ∧ (¬ agrees reminder task task →
             journal tw' = (journal tw ++ [CmdModify (uuid mapping)])%list
             ∧ t_modified task' = Some (now clock tw)).
Proof.
  intros Hmap Htask Hnewer Hok _.
  unfold sync_reminder_to_task, tasks_get. rewrite Hmap, Htask.
  rewrite (leb_false_of_ltb _ _ Hnewer).
  destruct (update_save_outcome clock (uuid mapping) task reminder tw Htask Hok)
    as (o & tw1 & -> & Hothers & Hcase).
  destruct (save clock tw1 (uuid mapping) o) as [o' tw'] eqn:Hsave.
  simpl in Hothers, Hcase.
  eexists tw', _, (modified_iso (_data o')). split; [reflexivity|].
  unfold get_by_uuid. rewrite mappings_set. simpl.
  split; [apply dict_get_set_eq|].
  split; [intros u Hu; by apply dict_get_set_ne|].
  split; [done|]. unfold modified_iso.
  destruct (truthy_flag (r_isCompleted reminder)
            && bool_decide (t_status task ≠ "completed")).
  - destruct Hcase as (Hstored & Hj & Hm). by rewrite Hm.
  - destruct Hcase as (t' & Hstored & Hag & Han & Hrid & Hloc & Hm & Hsame & Hdiff).
    exists t'. by rewrite Hm.
Qed.
End OneRecord.

(** ** What a whole run keeps *)

Section RunInvariants.
Context `{PF : Platform} `{BE : !Backend}.
Implicit Types (tw : TaskWarrior) (st : SyncState.t) (r : Reminder).

Lemma scan_None_elem rid (d : list (string * SyncMapping)) kv :
  scan_reminder_id rid d = None → kv ∈ d → reminder_id kv.2 ≠ rid.
Proof.
  intros Hs Hin Hr. apply scan_None_rids in Hs. apply Hs.
  apply list_elem_of_fmap. exists kv.2. split; [done|].
  by apply list_elem_of_fmap_2.
Qed.

Lemma NoDup_rids_same (d : list (string * SyncMapping)) kv kv' :
  NoDup (reminder_id <$> d.*2) → kv ∈ d → kv' ∈ d →
  reminder_id kv.2 = reminder_id kv'.2 → kv = kv'.
Proof.
  induction d as [|kv0 d IH]; simpl.
  - intros _ Hin. by apply elem_of_nil in Hin.
  - rewrite NoDup_cons. intros [Hnin Hnd] Hin Hin' Heq.
    assert (Hmem : ∀ x, x ∈ d → reminder_id x.2 ∈ reminder_id <$> d.*2).
    { intros x Hx. apply list_elem_of_fmap. exists x.2. split; [done|].
      by apply list_elem_of_fmap_2. }
    apply elem_of_cons in Hin as [->|Hin];
      apply elem_of_cons in Hin' as [->|Hin'].
    + done.
    + exfalso. apply Hnin. rewrite Heq. by apply Hmem.
    + exfalso. apply Hnin. rewrite <- Heq. by apply Hmem.
    + by apply IH.
Qed.

Lemma pass_unique_remote r acc acc' :
  pass r acc acc' → table_ok (mappings (doc acc.2)) →
  NoDup (reminder_id <$> (mappings (doc acc.2)).*2) →
  NoDup (reminder_id <$> (mappings (doc acc'.2)).*2).
Proof.
  intros Hp Hok Hnd.
  destruct Hp as [-> _|u m t' Hs _ _ Hu Hr _ Hm _|m0 m t0 t' Hs _ Hu Hr _ Hm _ _
                 |m0 _ _ _ Hm _].
  - done.
  - rewrite Hm, <- Hu. destruct Hok as [_ Hn].
    apply NoDup_rids_set; [done | done |].
    intros kv Hin Hkv. exfalso.
    apply (scan_None_elem _ _ kv Hs Hin). congruence.
  - rewrite Hm, <- Hu.
    destruct (scan_key _ _ _ Hok Hs) as (_ & Hin0 & _).
    destruct Hok as [_ Hn]. apply NoDup_rids_set; [done | done |].
    intros kv Hin Hkv.
    assert (kv = (uuid m0, m0)) as ->; [|by simpl].
    apply (NoDup_rids_same _ _ _ Hnd Hin Hin0). simpl. congruence.
  - rewrite Hm. by apply NoDup_rids_del.
Qed.

Lemma sweep_one_ok clock ids acc m :
  table_ok (mappings (doc acc.2)) →
  NoDup (reminder_id <$> (mappings (doc acc.2)).*2) →
  table_ok (mappings (doc (sweep_one clock ids acc m).2))
  ∧ NoDup (reminder_id <$> (mappings (doc (sweep_one clock ids acc m).2)).*2).
Proof.
  intros [Hk Hn] Hnd.
  destruct (decide (reminder_id m ∈ ids)) as [Hin|Hnin].
  - by rewrite sweep_one_id.
  - rewrite sweep_one_table by done. split; [split|].
    + by apply keyed_del.
    + by apply NoDup_keys_del.
    + by apply NoDup_rids_del.
Qed.

(** X10. A run keeps the table well formed: from a table that is a keyed dict
    in which no two mappings share a remote identifier, the table after the
    loop and the sweep is again one, and no two mappings share a uuid. *)
Theorem reconcile_keeps_table_well_formed clock (rs : list Reminder) tw st :
  table_ok (mappings (doc st)) →
  unique_remote st →
  table_ok (mappings (doc (reconcile clock rs (tw, st)).2))
  ∧ unique_local (reconcile clock rs (tw, st)).2
  ∧ unique_remote (reconcile clock rs (tw, st)).2.
Proof.
  intros Hok Hnd. unfold unique_remote, unique_local, all_mappings in *.
  assert (Hloop : ∀ acc,
    table_ok (mappings (doc acc.2)) →
    NoDup (reminder_id <$> (mappings (doc acc.2)).*2) →
    table_ok (mappings (doc (fold_left (sync_one clock) rs acc).2))
    ∧ NoDup (reminder_id <$> (mappings (doc (fold_left (sync_one clock) rs acc).2)).*2)).
  { induction rs as [|r0 rs IH]; intros acc Hok0 Hnd0; simpl; [done|].
    assert (Hp := sync_one_pass clock r0 acc).
    apply IH; [by eapply pass_table_ok | by eapply pass_unique_remote]. }
  assert (Hsweep : ∀ ids ms acc,
    table_ok (mappings (doc acc.2)) →
    NoDup (reminder_id <$> (mappings (doc acc.2)).*2) →
    table_ok (mappings (doc (fold_left (sweep_one clock ids) ms acc).2))
    ∧ NoDup (reminder_id <$> (mappings (doc (fold_left (sweep_one clock ids) ms acc).2)).*2)).
  { intros ids ms. induction ms as [|m ms IH]; intros acc Hok0 Hnd0; simpl; [done|].
    destruct (sweep_one_ok clock ids acc m Hok0 Hnd0). by apply IH. }
  unfold reconcile. rewrite check_deleted_unfold.
  destruct (Hloop (tw, st) Hok Hnd) as [Hok1 Hnd1].
  destruct (Hsweep (snapshot_ids rs)
              (all_mappings (fold_left (sync_one clock) rs (tw, st)).2)
              ((fold_left (sync_one clock) rs (tw, st)).1,
               (fold_left (sync_one clock) rs (tw, st)).2) Hok1 Hnd1)
    as [Hok2 Hnd2].
  split; [done|]. split; [|done].
  destruct Hok2 as [Hk2 Hn2]. by rewrite keyed_uuids.
Qed.
End RunInvariants.

Section RunMonotone.
Context `{PF : Platform} `{BE : !Backend}.
Implicit Types (tw : TaskWarrior) (st : SyncState.t) (r : Reminder).

Lemma saves_remove st u : (saves st ≤ saves (remove_mapping st u))%nat.
Proof. unfold remove_mapping. case_match; simpl; lia. Qed.

Lemma sync_one_grows clock acc r :
  journal acc.1 `prefix_of` journal (sync_one clock acc r).1
  ∧ (saves acc.2 ≤ saves (sync_one clock acc r).2)%nat.
Proof.
  destruct acc as [tw st]. unfold sync_one, sync_reminder_to_task. simpl.
  destruct (get_by_reminder_id st (r_identifier r)) as [m0|].
  - unfold tasks_get. destruct (tasks tw !! uuid m0) as [t0|] eqn:Ht.
    + destruct (String.leb _ _); [done|].
      assert (Hu := update_save_cases clock (uuid m0) t0 r tw Ht).
      destruct (update_task_from_reminder clock (uuid m0) (loaded t0) r tw)
        as [[o tw1]|e]; [|done].
      destruct Hu as (t' & _ & _ & Hj).
      destruct (save clock tw1 (uuid m0) o) as [o' tw']. simpl in *.
      split; [done | lia].
    + destruct get_raises; [done|]. simpl. split; [done | apply saves_remove].
  - destruct (truthy_flag (r_isCompleted r)); [done|].
    unfold save_new. destruct (existsb _ _); [done|]. simpl.
    split; [by apply prefix_app_r | lia].
Qed.

Lemma sweep_one_grows clock ids acc m :
  journal acc.1 `prefix_of` journal (sweep_one clock ids acc m).1
  ∧ (saves acc.2 ≤ saves (sweep_one clock ids acc m).2)%nat.
Proof.
  destruct acc as [tw st]. unfold sweep_one.
  case_bool_decide; [|done]. simpl. split; [|apply saves_remove].
  unfold tasks_get. destruct (tasks tw !! uuid m) as [t|].
  - case_bool_decide; [|done]. unfold delete.
    rewrite bool_decide_false by done. simpl. by apply prefix_app_r.
  - by destruct get_raises.
Qed.

Lemma sweep_one_untouched clock ids acc m u :
  u ≠ uuid m → tasks (sweep_one clock ids acc m).1 !! u = tasks acc.1 !! u.
Proof.
  intros Hne. destruct acc as [tw st]. unfold sweep_one.
  case_bool_decide; [|done]. simpl.
  unfold tasks_get. destruct (tasks tw !! uuid m) as [t|].
  - case_bool_decide; [|done]. unfold delete.
    rewrite bool_decide_false by done. simpl. by rewrite lookup_insert_ne.
  - by destruct get_raises.
Qed.

Lemma pass_untouched r acc acc' u t :
  pass r acc acc' → tasks acc.1 !! u = Some t →
  u ∉ uuid <$> all_mappings acc.2 →
  tasks acc'.1 !! u = Some t ∧ u ∉ uuid <$> all_mappings acc'.2.
Proof.
  intros Hp Ht Hnin. unfold all_mappings in *.
  assert (Hout : ∀ k m, (k, m) ∈ mappings (doc acc.2) → uuid m ≠ u).
  { intros k m Hin <-. apply Hnin. apply list_elem_of_fmap. exists m.
    split; [done|]. apply list_elem_of_fmap. by exists (k, m). }
  assert (Hset : ∀ k m, uuid m ≠ u →
    u ∉ uuid <$> (dict_set k m (mappings (doc acc.2))).*2).
  { intros k m Hm Hin. apply list_elem_of_fmap in Hin as (m' & -> & Hin).
    apply list_elem_of_fmap in Hin as ([k' m''] & -> & Hin). simpl in *.
    apply elem_of_dict_set in Hin as [[= -> ->]|Hin]; [done|].
    by apply (Hout k' m''). }
  destruct Hp as [-> _|u0 m t' _ Hnone _ Hu _ _ Hm Htw
                 |m0 m t0 t' Hs _ Hu _ _ Hm Htw _|m0 _ _ _ Hm Htw].
  - done.
  - rewrite Htw, Hm. split.
    + rewrite lookup_insert_ne; [done | congruence].
    + apply Hset. congruence.
  - apply scan_Some_elem in Hs as [_ [k Hin0]].
    assert (uuid m0 ≠ u) by by apply (Hout k).
    rewrite Htw, Hm. split.
    + by rewrite lookup_insert_ne.
    + apply Hset. congruence.
  - rewrite Htw, Hm. split; [done|]. intros Hin.
    apply list_elem_of_fmap in Hin as (m' & -> & Hin).
    apply list_elem_of_fmap in Hin as ([k' m''] & -> & Hin). simpl in *.
    apply elem_of_dict_del in Hin as [_ Hin]. by apply (Hout k' m'').
Qed.

(** X11. What a run never does: it removes no task from the store (a task
    of the store before is in the store after, and a deleted one is still
    deleted), it only appends to the commands issued, it never rolls back a
    write of the state file, and it leaves the time of the last sync as it
    was (only [main] sets it, after the run). *)
Theorem run_only_adds clock (rs : list Reminder) tw st :
  let final := reconcile clock rs (tw, st) in
  (∀ u t, tasks tw !! u = Some t →
          ∃ t', tasks final.1 !! u = Some t'
                ∧ (t_status t = "deleted" → t_status t' = "deleted"))
  ∧ journal tw `prefix_of` journal final.1
  ∧ (saves st ≤ saves final.2)%nat
  ∧ last_sync (doc final.2) = last_sync (doc st).
Proof.
  intros final. unfold final, reconcile. rewrite check_deleted_unfold.
  assert (Hloop : ∀ acc,
    let acc' := fold_left (sync_one clock) rs acc in
    store_le acc.1 acc'.1 ∧ journal acc.1 `prefix_of` journal acc'.1
    ∧ (saves acc.2 ≤ saves acc'.2)%nat
    ∧ last_sync (doc acc'.2) = last_sync (doc acc.2)).
  { induction rs as [|r0 rs IH]; intros acc; simpl.
    - split; [apply store_le_refl | done].
    - destruct (IH (sync_one clock acc r0)) as (Hle & Hj & Hs & Hl).
      destruct (sync_one_grows clock acc r0) as [Hj0 Hs0].
      assert (Hp := sync_one_pass clock r0 acc).
      split; [eapply store_le_trans; [by eapply pass_store_le | done]|].
      split; [by etrans|]. split; [lia|]. rewrite Hl.
      clear -acc. destruct acc as [tw0 st0].
      unfold sync_one, sync_reminder_to_task. simpl.
      destruct (get_by_reminder_id st0 (r_identifier r0)) as [m0|].
      + destruct (tasks_get tw0 (uuid m0)) as [[t0|]|e]; [| |done].
        * destruct (String.leb _ _); [done|].
          destruct (update_task_from_reminder _ _ _ _ _) as [[? ?]|?]; [|done].
          by destruct (save _ _ _ _).
        * simpl. unfold remove_mapping. by case_match.
      + destruct (truthy_flag _); [done|].
        by destruct (save_new _ _ _ _) as [[[? ?] ?]|?]. }
  assert (Hsweep : ∀ ids ms acc,
    let acc' := fold_left (sweep_one clock ids) ms acc in
    journal acc.1 `prefix_of` journal acc'.1
    ∧ (saves acc.2 ≤ saves acc'.2)%nat
    ∧ last_sync (doc acc'.2) = last_sync (doc acc.2)).
  { intros ids ms. induction ms as [|m ms IH]; intros acc; simpl; [done|].
    destruct (IH (sweep_one clock ids acc m)) as (Hj & Hs & Hl).
    destruct (sweep_one_grows clock ids acc m) as [Hj0 Hs0].
    split; [by etrans|]. split; [lia|]. rewrite Hl.
    destruct acc as [tw0 st0]. unfold sweep_one.
    case_bool_decide; [|done]. simpl. unfold remove_mapping. by case_match. }
  set (acc1 := fold_left (sync_one clock) rs (tw, st)).
  destruct (Hloop (tw, st)) as (Hle1 & Hj1 & Hs1 & Hl1). fold acc1 in Hle1, Hj1, Hs1, Hl1.
  destruct (Hsweep (snapshot_ids rs) (all_mappings acc1.2) (acc1.1, acc1.2))
    as (Hj2 & Hs2 & Hl2).
  destruct (sweep_all_store clock (snapshot_ids rs) (all_mappings acc1.2)
              (acc1.1, acc1.2)) as [Hle2 _].
  split; [|split; [by etrans|split; [simpl in *; lia|by rewrite Hl2]]].
  intros u t Ht. by apply (store_le_trans _ _ _ Hle1 Hle2).
Qed.

(** X12. A task whose uuid is in no mapping is not touched by a run, whatever
    the snapshot holds. *)
Theorem unmapped_tasks_are_untouched clock (rs : list Reminder) tw st u t :
  tasks tw !! u = Some t →
  u ∉ uuid <$> all_mappings st →
  tasks (reconcile clock rs (tw, st)).1 !! u = Some t.
Proof.
  intros Ht Hnin. unfold reconcile. rewrite check_deleted_unfold.
  assert (Hloop : ∀ acc,
    tasks acc.1 !! u = Some t → u ∉ uuid <$> all_mappings acc.2 →
    tasks (fold_left (sync_one clock) rs acc).1 !! u = Some t
    ∧ u ∉ uuid <$> all_mappings (fold_left (sync_one clock) rs acc).2).
  { induction rs as [|r0 rs IH]; intros acc Ht0 Hn0; simpl; [done|].
    assert (Hp := sync_one_pass clock r0 acc).
    destruct (pass_untouched _ _ _ _ _ Hp Ht0 Hn0). by apply IH. }
  destruct (Hloop (tw, st) Ht Hnin) as [Ht1 Hn1].
  set (acc1 := fold_left (sync_one clock) rs (tw, st)) in *.
  assert (Hsweep : ∀ ids ms acc,
    (∀ m, m ∈ ms → uuid m ≠ u) →
    tasks (fold_left (sweep_one clock ids) ms acc).1 !! u = tasks acc.1 !! u).
  { intros ids ms. induction ms as [|m ms IH]; intros acc Hall; simpl; [done|].
    rewrite IH by (intros m' ?; apply Hall; by right).
    apply sweep_one_untouched. intros ->. by apply (Hall m); [left|]. }
  rewrite Hsweep; [done|]. intros m Hm <-. apply Hn1.
  by apply list_elem_of_fmap_2.
Qed.

(** X13. On a keyed table, the deletion sweep changes nothing (neither the
    store nor the table, and no write of the file) exactly when the snapshot
    holds the remote identifier of every mapping. *)
Theorem sweep_changes_nothing_iff_snapshot_complete clock (rs : list Reminder) tw st :
  keyed (mappings (doc st)) →
  check_deleted_reminders clock rs tw st = (tw, st)
  ↔ ∀ m, m ∈ all_mappings st → reminder_id m ∈ snapshot_ids rs.
Proof.
  intros Hk. split.
  - intros Heq m Hm. unfold all_mappings in Hm.
    apply list_elem_of_fmap in Hm as (kv & -> & Hkv).
    apply (sweep_leaves_snapshot_ids clock rs tw st kv Hk). by rewrite Heq.
  - intros Hall. rewrite check_deleted_unfold. by apply sweep_all_id.
Qed.
End RunMonotone.

(** ** The hooks: what they leave alone, and how they compose *)

Lemma dict_del_set_fresh {V : Type} k (v : V) d :
  dict_get k d = None → dict_del k (dict_set k v d) = d.
Proof.
  unfold dict_del. induction d as [|[k1 v1] d IH]; simpl.
  - intros _. rewrite filter_cons_False by (simpl; tauto). done.
  - destruct (decide (k1 = k)) as [->|Hne]; [done|]. intros Hnone.
    rewrite filter_cons_True by done. by rewrite IH.
Qed.

(** X14. The on-add hook, in full.  A task that already carries a remote
    identifier is printed as it came and the state file is left alone.  In
    every other case either that same happens (the agent failed, timed out,
    or answered without an identifier), or the agent exited with status 0
    and a non-empty identifier: then the task printed is the task with that
    identifier, and the state file holds the identifier under the task's
    uuid while every other uuid and the time of the last sync are as
    before. *)
Theorem on_add_footprint task run file :
  (truthy_get (h_reminder_id task) = true → OnAdd.main task run file = (task, file))
  ∧ (OnAdd.main task run file = (task, file)
     ∨ ∃ rid,
         run = Exited 0 (Some (Some rid)) ∧ rid ≠ ""
         ∧ truthy_get (h_reminder_id task) = false
         ∧ (OnAdd.main task run file).1 = with_reminder_id rid task
         ∧ ∃ d, (OnAdd.main task run file).2 = Some d
                ∧ (reminder_id <$> dict_get (h_uuid task) (mappings d)) = Some rid
                ∧ (∀ k, k ≠ h_uuid task →
                     dict_get k (mappings d)
                     = dict_get k (mappings (default empty_doc file)))
                ∧ last_sync d = last_sync (default empty_doc file)).
Proof.
  split.
  - intros Hecho. unfold OnAdd.main. by rewrite Hecho.
  - unfold OnAdd.main, OnAdd.create_reminder.
    destruct (truthy_get (h_reminder_id task)) eqn:Hecho; [by left|].
    destruct run as [code [response|]|]; [|by left|by left].
    case_bool_decide as Hcode; [|by left]. subst code.
    destruct response as [rid|]; [|by left].
    destruct (truthy_str rid) eqn:Hrid; [|by left].
    right. exists rid. split; [done|].
    split; [by apply bool_decide_eq_true in Hrid|]. split; [done|].
    split; [done|]. eexists. split; [reflexivity|]. simpl.
    rewrite dict_get_set_eq. split; [done|]. split; [|done].
    intros k Hk. by apply dict_get_set_ne.
Qed.

(** X15. The two hooks compose: after the on-add hook has created a reminder
    for a task, the on-modify hook finds that reminder's identifier in the
    state file under the task's uuid; once it has removed the mapping the
    lookup finds nothing, and if the uuid had no mapping before the create,
    the state file is back to what it was. *)
Theorem add_then_lookup_then_delete task run file rid :
  truthy_get (h_reminder_id task) = false →
  OnAdd.create_reminder task run = Some rid →
  rid ≠ "" →
  let file' := (OnAdd.main task run file).2 in
  OnModify.get_reminder_id (h_uuid task) file' = Some rid
  ∧ OnModify.get_reminder_id (h_uuid task)
      (OnModify.remove_from_sync_state (h_uuid task) file') = None
  ∧ (∀ state, file = Some state →
       dict_get (h_uuid task) (mappings state) = None →
       OnModify.remove_from_sync_state (h_uuid task) file' = Some state).
Proof.
  intros Hno Hcreate Hrid. unfold OnAdd.main.
  rewrite Hno, Hcreate. unfold truthy_str. rewrite bool_decide_true by done.
  cbv zeta. cbn [snd]. unfold OnAdd.update_sync_state.
  unfold OnModify.get_reminder_id, OnModify.remove_from_sync_state.
  cbn [mappings last_sync].
  assert (Hhas : ∀ (v : SyncMapping) d,
            dict_has (h_uuid task) (dict_set (h_uuid task) v d) = true).
  { intros v d. apply dict_has_get.
    rewrite dict_get_set_eq. by eexists. }
  rewrite Hhas. cbn [mappings last_sync]. rewrite dict_get_set_eq, dict_get_del_eq.
  split; [done|]. split; [done|].
  intros state -> Hnone. simpl. rewrite dict_del_set_fresh by done.
  by destruct state.
Qed.

(** X16. The on-modify hook, in full: it prints the modified task unchanged,
    makes at most one call of the agent, creates no state file, and leaves
    the state file alone unless the task is deleted; without a remote
    identifier (neither on the task nor in the state file) it makes no call
    at all; a delete call is made only for a deleted task, and an update
    call only for a task that is not deleted, with at least one field beside
    the identifier. *)
Theorem on_modify_footprint original modified run file :
  let out := OnModify.main original modified run file in
  out.2 = modified
  ∧ (length out.1.1 ≤ 1)%nat
  ∧ (file = None → out.1.2 = None)
  ∧ (h_status modified ≠ Some "deleted" → out.1.2 = file)
  ∧ (truthy_get (h_reminder_id modified) = false →
     truthy_get (OnModify.get_reminder_id (h_uuid modified) file) = false →
     out.1.1 = [] ∧ out.1.2 = file)
  ∧ (∀ rid, OnModify.CallDelete rid ∈ out.1.1 →
            h_status modified = Some "deleted")
  ∧ (∀ payload, OnModify.CallUpdate payload ∈ out.1.1 →
                h_status modified ≠ Some "deleted"
                ∧ (2 ≤ OnModify.len payload)%nat).
Proof.
  cbv zeta. unfold OnModify.main.
  set (resolved := if truthy_get (h_reminder_id modified)
                   then h_reminder_id modified
                   else OnModify.get_reminder_id (h_uuid modified) file).
  assert (Hres : truthy_get (h_reminder_id modified) = false →
                 resolved = OnModify.get_reminder_id (h_uuid modified) file).
  { intros Hf. unfold resolved. by rewrite Hf. }
  destruct resolved as [rid|] eqn:Hr.
  - destruct (truthy_str rid) eqn:Hrid.
    + case_bool_decide as Hdel; simpl.
      * split; [done|]. split; [lia|]. split; [by intros ->|].
        split; [done|]. split.
        { intros Hf Hg. rewrite <- (Hres Hf) in Hg. simpl in Hg. congruence. }
        split; [done|]. intros payload Hin.
        apply list_elem_of_singleton in Hin. discriminate.
      * split; [done|]. unfold OnModify.update_reminder.
        case_bool_decide as Hlen; simpl.
        -- split; [lia|]. split; [done|]. split; [done|].
           split; [done|]. split; intros ? Hin; by apply elem_of_nil in Hin.
        -- split; [lia|]. split; [done|]. split; [done|]. split.
           { intros Hf Hg. rewrite <- (Hres Hf) in Hg. simpl in Hg. congruence. }
           split.
           { intros rid' Hin. apply list_elem_of_singleton in Hin. discriminate. }
           intros payload Hin. apply list_elem_of_singleton in Hin.
           injection Hin as ->. split; [done | lia].
    + simpl. split; [done|]. split; [lia|]. split; [done|]. split; [done|].
      split; [done|]. split; intros ? Hin; by apply elem_of_nil in Hin.
  - simpl. split; [done|]. split; [lia|]. split; [done|]. split; [done|].
    split; [done|]. split; intros ? Hin; by apply elem_of_nil in Hin.
Qed.

(** X17. The hooks keep the table of the state file well formed: the file
    [update_sync_state] writes holds a keyed dict, with distinct remote
    identifiers if they were distinct and the new one was not held under
    another uuid; the file [remove_from_sync_state] leaves holds a keyed
    dict, with distinct remote identifiers if they were distinct, and no
    file is created where there was none. *)
Theorem hooks_keep_table_well_formed uuid0 rid modified file :
  table_ok (mappings (default empty_doc file)) →
  (∃ d, OnAdd.update_sync_state uuid0 rid modified file = Some d
        ∧ table_ok (mappings d)
        ∧ (unique_remote {| doc := default empty_doc file; saves := 0 |} →
           (∀ kv, kv ∈ mappings (default empty_doc file) →
                  reminder_id kv.2 = rid → kv.1 = uuid0) →
           unique_remote {| doc := d; saves := 0 |}))
  ∧ (match OnModify.remove_from_sync_state uuid0 file with
     | Some d => table_ok (mappings d)
                 ∧ (unique_remote {| doc := default empty_doc file; saves := 0 |} →
                    unique_remote {| doc := d; saves := 0 |})
     | None => file = None
     end).
Proof.
  intros [Hk Hn]. split.
  - eexists. split; [reflexivity|]. simpl.
    set (m := {| uuid := uuid0; reminder_id := rid; tw_modified := modified;
                 reminder_modified := "" |}).
    split; [split|].
    + apply (keyed_set m). done.
    + by apply NoDup_keys_set.
    + intros Hu Hsame. unfold unique_remote, all_mappings in *. simpl in *.
      apply (NoDup_rids_set m); done.
  - destruct file as [state|]; [|done]. simpl in *.
    unfold OnModify.remove_from_sync_state.
    destruct (dict_has uuid0 (mappings state)); simpl.
    + split; [split; [by apply keyed_del | by apply NoDup_keys_del]|].
      unfold unique_remote, all_mappings. simpl. apply NoDup_rids_del.
    + done.
Qed.

Section AfterCreate.
Context `{PF : Platform} `{BE : !Backend}.

Lemma leb_nonempty_empty s : s ≠ "" → String.leb s "" = false.
Proof. by destruct s. Qed.

(** X18. After a local create, the first run that sees the new reminder with
    a title and a modification date never skips it: the mapping the on-add hook writes
    has the empty remote fingerprint, below every non-empty date, so the
    Reconciler goes on to apply the record (or raises, when the record is
    completed and the task deleted).  The record's date is stored as
    fingerprint, by one write of the state file, and commands are only
    added; if the record is completed and the task is not, the task is
    completed and keeps its title; otherwise the task carries the record's
    values afterwards. *)
Theorem first_sync_after_local_create
    clock task run file d reminder tw rid s t :
  truthy_get (h_reminder_id task) = false →
  OnAdd.create_reminder task run = Some rid →
  rid ≠ "" →
  (OnAdd.main task run file).2 = Some d →
  scan_reminder_id rid (mappings (default empty_doc file)) = None →
  r_identifier reminder = rid →
  r_modificationDate reminder = Some s →
  s ≠ "" →
  r_title reminder ≠ "" →
  tasks tw !! h_uuid task = Some t →
  match sync_reminder_to_task clock reminder tw {| doc := d; saves := 0 |} with
  | Ok (tw', state') =>
      (reminder_modified <$> get_by_uuid state' (h_uuid task)) = Some s
      ∧ saves state' = 1
      ∧ journal tw `prefix_of` journal tw'
      ∧ ∃ t', tasks tw' !! h_uuid task = Some t'
              ∧ if truthy_flag (r_isCompleted reminder)
                   && bool_decide (t_status t ≠ "completed")
                then t_status t' = "completed"
                     ∧ t_description t' = t_description t
                else agrees reminder t t'
  | Raise e =>
      truthy_flag (r_isCompleted reminder) = true ∧ t_status t = "deleted"
  end.
Proof.
  intros Hno Hcreate Hrid Hmain Hscan Hid Hmod Hs _ Ht.
  revert Hmain. unfold OnAdd.main. rewrite Hno, Hcreate.
  unfold truthy_str. rewrite bool_decide_true by done. cbn [snd].
  unfold OnAdd.update_sync_state. intros [= <-].
  unfold sync_reminder_to_task, get_by_reminder_id. cbn [doc mappings].
  rewrite Hid. rewrite (scan_set_new rid _ _ _ Hscan) by done.
  unfold tasks_get. cbn [uuid reminder_modified]. rewrite Ht, Hmod.
  change (default "" (Some s)) with s. rewrite (leb_nonempty_empty s Hs).
  assert (Hcases := update_save_cases clock (h_uuid task) t reminder tw Ht).
  destruct (decide (truthy_flag (r_isCompleted reminder) = true
                    ∧ t_status t = "deleted")) as [Hbad|Hok].
  { destruct Hbad as [Hc Hdel].
    destruct (update_object clock (h_uuid task) t reminder tw)
      as (o & _ & Hst & _ & _ & _ & _ & _ & _ & _ & _ & ->).
    rewrite Hc. simpl. rewrite bool_decide_true by (rewrite Hdel; done).
    unfold done. rewrite Hst, Hdel.
    rewrite bool_decide_false by done. by rewrite bool_decide_true. }
  destruct (update_save_outcome clock (h_uuid task) t reminder tw Ht Hok)
    as (o & tw1 & Hu & _ & Hcase).
  rewrite Hu in Hcases |- *. destruct Hcases as (_ & _ & _ & Hj).
  destruct (save clock tw1 (h_uuid task) o) as [o' tw'] eqn:Hsave.
  simpl in Hj, Hcase.
  unfold get_by_uuid. rewrite mappings_set. simpl.
  rewrite dict_get_set_eq. split; [done|]. split; [done|]. split; [done|].
  destruct (truthy_flag (r_isCompleted reminder)
            && bool_decide (t_status t ≠ "completed")).
  - destruct Hcase as (Hstored & _ & _). eexists. split; [exact Hstored|]. done.
  - destruct Hcase as (t' & Hstored & Hag & _). by exists t'.
Qed.
End AfterCreate.

(** ** The payload of the create call *)
Import OnAddPayload.

Section PayloadFacts.
Context `{PF : Platform}.
Variable lower : string → string.

Lemma first_partial_Some k (locations : list (string * Location)) data :
  first_partial lower k locations = Some data →
  ∃ key, (key, data) ∈ locations
         ∧ (String.prefix k key = true
            ∨ str_contains k (lower (l_name data)) = true).
Proof.
  induction locations as [|[key d0] rest IH]; simpl; [done|].
  destruct (String.prefix k key || str_contains k (lower (l_name d0))) eqn:Hm.
  - intros [= <-]. exists key. split; [left|].
    by apply orb_true_iff in Hm.
  - intros Hf. destruct (IH Hf) as (key' & Hin & Hor).
    exists key'. split; [by right | done].
Qed.

Lemma first_partial_None k (locations : list (string * Location)) :
  first_partial lower k locations = None
  ↔ ∀ key data, (key, data) ∈ locations →
      String.prefix k key = false
      ∧ str_contains k (lower (l_name data)) = false.
Proof.
  induction locations as [|[key d0] rest IH]; simpl.
  - split; [|done]. intros _ key data Hin. by apply elem_of_nil in Hin.
  - destruct (String.prefix k key || str_contains k (lower (l_name d0))) eqn:Hm.
    + split; [done|]. intros Hall.
      destruct (Hall key d0) as [H1 H2]; [left|].
      rewrite H1, H2 in Hm. discriminate.
    + rewrite IH. apply orb_false_iff in Hm. split.
      * intros Hall key' data Hin.
        apply elem_of_cons in Hin as [[= -> ->]|Hin]; [done | by apply Hall].
      * intros Hall key' data Hin. apply Hall. by right.
Qed.

(** X19. [lookup_location]: an entry under the lowered shorthand itself wins
    over every partial match; whatever is returned is an entry of the
    directory whose key is the lowered shorthand or starts with it, or whose
    lowered name contains it; nothing is returned exactly when no entry
    qualifies; and with no directory (no file, or no ["locations"] table)
    nothing is ever found. *)
Theorem lookup_location_spec loc_key (f : locations_file) :
  let locations := load_locations f in
  let k := lower loc_key in
  (∀ data, dict_get k locations = Some data →
           lookup_location lower loc_key f = Some data)
  ∧ (∀ data, lookup_location lower loc_key f = Some data →
       ∃ key, (key, data) ∈ locations
              ∧ (key = k ∨ String.prefix k key = true
                 ∨ str_contains k (lower (l_name data)) = true))
  ∧ (lookup_location lower loc_key f = None
     ↔ dict_get k locations = None
       ∧ ∀ key data, (key, data) ∈ locations →
           String.prefix k key = false
           ∧ str_contains k (lower (l_name data)) = false)
  ∧ (locations = [] → lookup_location lower loc_key f = None).
Proof.
  cbv zeta. unfold lookup_location. split; [|split; [|split]].
  - by intros data ->.
  - intros data. destruct (dict_get _ _) as [d0|] eqn:Hget.
    + intros [= <-]. exists (lower loc_key).
      split; [by apply dict_get_Some_elem | by left].
    + intros Hf. apply first_partial_Some in Hf as (key & Hin & Hor).
      exists key. split; [done | by right].
  - destruct (dict_get _ _) as [d0|] eqn:Hget.
    + split; [done | by intros [? _]].
    + rewrite first_partial_None. split; [by intros ? | by intros [_ ?]].
  - by intros ->.
Qed.

(** X20. The payload of the create call: the title is the task's
    description; the list is never empty, and is Reminders for a task
    without project; the priority is 0, 1, 5 or 9; an empty due date is
    never sent; without ["loc"] no location name and no coordinates are
    sent; a directory entry found for ["loc"] gives name and coordinates
    (the task's own coordinates are ignored) and its radius unless the task
    has one; a ["loc"] not found is sent as the name, with only the task's
    own coordinates and radius. *)
Theorem payload_spec (task : AddTask) (f : locations_file) :
  let data := build_reminder_data lower task f in
  let resolved :=
    if truthy_get (a_loc task)
    then lookup_location lower (default "" (a_loc task)) f else None in
  d_title data = default "" (h_description (a_task task))
  ∧ d_list data ≠ ""
  ∧ (truthy_get (a_project task) = false → d_list data = "Reminders")
  ∧ d_priority data ∈ [0; 1; 5; 9]%Z
  ∧ d_due_date data ≠ Some ""
  ∧ (truthy_get (a_loc task) = false →
     d_location_name data = None ∧ d_location_lat data = None
     ∧ d_location_lon data = None)
  ∧ (∀ found, resolved = Some found →
       d_location_name data = Some (l_name found)
       ∧ d_location_lat data = Some (l_lat found)
       ∧ d_location_lon data = Some (l_lon found)
       ∧ d_location_radius data
         = Some (match a_location_radius task with
                 | Some x => if number_truthy x then Radius x
                             else directory_radius found
                 | None => directory_radius found
                 end))
  ∧ (truthy_get (a_loc task) = true → resolved = None →
     d_location_name data = a_loc task
     ∧ (d_location_lat data = None ∨ d_location_lat data = a_location_lat task)
     ∧ (d_location_lon data = None ∨ d_location_lon data = a_location_lon task)
     ∧ ∀ r, d_location_radius data = Some r →
            ∃ x, a_location_radius task = Some x ∧ r = Radius x).
Proof.
  cbv zeta. unfold build_reminder_data. cbn [d_title d_list d_priority d_due_date
    d_location_name d_location_lat d_location_lon d_location_radius].
  split; [done|]. split.
  { destruct (truthy_get (a_project task)) eqn:Hp; [|done].
    destruct (a_project task) as [p|]; simpl in *; [|done].
    by apply bool_decide_eq_true in Hp. }
  split; [by intros ->|]. split.
  { destruct (h_priority (a_task task)) as [p|]; simpl; [|repeat constructor].
    repeat case_bool_decide; repeat constructor. }
  split.
  { destruct (h_due (a_task task)) as [due|] eqn:Hdue; simpl; [|done].
    unfold truthy_str. case_bool_decide; [congruence | done]. }
  split; [by intros ->|]. split.
  { intros found ->. split; [done|]. split; [done|]. split; [done|].
    unfold directory_radius.
    destruct (a_location_radius task) as [x|]; [|done].
    by destruct (number_truthy x). }
  intros Hloc Hres. rewrite Hres, Hloc. split; [done|]. simpl.
  split; [destruct (truthy_number _); auto|].
  split; [destruct (truthy_number _); auto|].
  intros r. destruct (a_location_radius task) as [x|]; [|done].
  destruct (number_truthy x); [|done]. intros [= <-]. by exists x.
Qed.

End PayloadFacts.

(** ** A whole run *)

Section WholeRun.
Context `{PF : Platform} `{BE : !Backend}.

(** X21. A run of [main] that completes held the lock, read a state file of
    the declared shape and an export it could read; the store and the table
    it leaves are those of the Reconciler on that state and that snapshot;
    the time of the last sync is the time at the end of the run, written by
    one more write of the state file. *)
Theorem completed_run_stamps_the_state lock_free f run clock today tw tw' st' :
  main lock_free f run clock today tw = Completed tw' st' →
  lock_free = true
  ∧ ∃ st rs,
      init f = Loaded st ∧ fetch_reminders run = Ok rs
      ∧ tw' = (reconcile clock rs (tw, st)).1
      ∧ mappings (doc st') = mappings (doc (reconcile clock rs (tw, st)).2)
      ∧ last_sync (doc st') = Some today
      ∧ saves st' = S (saves (reconcile clock rs (tw, st)).2).
Proof.
  unfold main. destruct lock_free; [|done].
  destruct (init f) as [e| |st]; [done|done|].
  destruct (fetch_reminders run) as [rs|e]; [|done].
  destruct (reconcile clock rs (tw, st)) as [tw1 st1] eqn:Hrun.
  intros [= <- <-]. split; [done|]. exists st, rs. by rewrite Hrun.
Qed.
End WholeRun.

(** ** Instances of the properties above *)

Lemma upsert_then_get_by_reminder_id_witness :
  get_by_reminder_id (set_mapping Demo.one_mapping Demo.tea_mapping) "R2"
  = Some Demo.tea_mapping.
Proof.
  apply (upsert_then_get_by_reminder_id Demo.one_mapping Demo.tea_mapping).
  - constructor; [reflexivity | constructor].
  - intros m' Hin. apply list_elem_of_singleton in Hin as ->. discriminate.
Defined.

(** A completed record, a record with notes and an active record without,
    none of them known. *)
Lemma unknown_record_outcome_witness :
  sync_reminder_to_task (BE := Demo.strict) Demo.clock
    (Demo.milk None true) Demo.no_task Demo.no_mapping
  = Ok (Demo.no_task, Demo.no_mapping)
  ∧ sync_reminder_to_task (BE := Demo.strict) Demo.clock
      Demo.eggs Demo.no_task Demo.no_mapping
    = Raise AttributeError
  ∧ ∃ u tw' state',
      sync_reminder_to_task (BE := Demo.strict) Demo.clock
        Demo.bread Demo.no_task Demo.no_mapping
      = Ok (tw', state')
      ∧ journal tw' = [CmdAdd u]
      ∧ (reminder_id <$> get_by_uuid state' u) = Some "R2".
Proof.
  split; [|split].
  - apply (proj1 (unknown_record_outcome (BE := Demo.strict) Demo.clock
                    (Demo.milk None true) Demo.no_task Demo.no_mapping
                    eq_refl)).
    reflexivity.
  - apply (proj1 (proj2 (unknown_record_outcome (BE := Demo.strict) Demo.clock
                           Demo.eggs Demo.no_task Demo.no_mapping eq_refl)));
      reflexivity.
  - destruct (proj2 (proj2 (unknown_record_outcome (BE := Demo.strict)
                              Demo.clock Demo.bread Demo.no_task
                              Demo.no_mapping eq_refl)) eq_refl eq_refl
                ltac:(discriminate))
      as (u & task & mapping & tw' & state' & Hrun & _ & _ & _ & Hj & _ & _ & _
          & _ & _ & _ & Hm & Hget & _).
    exists u, tw', state'. split; [exact Hrun|]. split; [exact Hj|].
    rewrite Hget, Hm. reflexivity.
Defined.

(** A completed record, newer than the fingerprint, on a pending task. *)
Lemma newer_record_is_applied_witness :
  ∃ tw' state',
    sync_reminder_to_task (BE := Demo.strict) Demo.clock
      (Demo.milk (Some "2024-01-03T00:00:00Z") true)
      (Demo.one_task "pending") Demo.one_mapping = Ok (tw', state')
    ∧ journal tw' = [CmdDone "u1"]
    ∧ get_by_uuid state' "u1"
      = Some {| uuid := "u1"; reminder_id := "R1";
                tw_modified := "2024-01-01T00:00:05+00:00";
                reminder_modified := "2024-01-03T00:00:00Z" |}.
Proof.
  destruct (newer_record_is_applied (BE := Demo.strict) Demo.clock
              (Demo.milk (Some "2024-01-03T00:00:00Z") true)
              (Demo.one_task "pending") Demo.one_mapping
              Demo.milk_mapping (Demo.milk_task "pending"))
    as (tw' & state' & stamp & Hrun & Hget & _ & _ & Hcase).
  - reflexivity.
  - reflexivity.
  - reflexivity.
  - intros [_ Hdel]. discriminate.
  - discriminate.
  - destruct Hcase as (_ & Hj & Hstamp).
    exists tw', state'. split; [exact Hrun|]. split; [exact Hj|].
    simpl in Hget. rewrite Hget, Hstamp. reflexivity.
Defined.

Lemma reconcile_keeps_table_well_formed_witness :
  let rs := [Demo.milk (Some "2024-01-03T00:00:00Z") false; Demo.bread] in
  let final := reconcile (BE := Demo.strict) Demo.clock rs
                 (Demo.one_task "pending", Demo.one_mapping) in
  table_ok (mappings (doc final.2)) ∧ unique_local final.2 ∧ unique_remote final.2.
Proof.
  apply (reconcile_keeps_table_well_formed (BE := Demo.strict) Demo.clock
           [Demo.milk (Some "2024-01-03T00:00:00Z") false; Demo.bread]
           (Demo.one_task "pending") Demo.one_mapping).
  - split; [constructor; [reflexivity | constructor] | apply NoDup_singleton].
  - apply NoDup_singleton.
Defined.

Lemma unmapped_tasks_are_untouched_witness :
  tasks (reconcile (BE := Demo.strict) Demo.clock [Demo.bread]
           (Demo.one_task "pending", Demo.no_mapping)).1 !! "u1"
  = Some (Demo.milk_task "pending").
Proof.
  apply (unmapped_tasks_are_untouched (BE := Demo.strict) Demo.clock
           [Demo.bread] (Demo.one_task "pending") Demo.no_mapping).
  - reflexivity.
  - apply not_elem_of_nil.
Defined.

Lemma sweep_changes_nothing_iff_snapshot_complete_witness :
  check_deleted_reminders (BE := Demo.strict) Demo.clock
    [Demo.milk None false] (Demo.one_task "pending") Demo.one_mapping
  = (Demo.one_task "pending", Demo.one_mapping)
  ↔ ∀ m, m ∈ all_mappings Demo.one_mapping →
         reminder_id m ∈ snapshot_ids [Demo.milk None false].
Proof.
  apply (sweep_changes_nothing_iff_snapshot_complete (BE := Demo.strict)
           Demo.clock [Demo.milk None false] (Demo.one_task "pending")
           Demo.one_mapping).
  constructor; [reflexivity | constructor].
Defined.

Lemma add_then_lookup_then_delete_witness :
  let task := Demo.hook_task "pending" None None in
  let file' := (OnAdd.main task (Exited 0 (Some (Some "R1"))) None).2 in
  OnModify.get_reminder_id "u1" file' = Some "R1"
  ∧ OnModify.get_reminder_id "u1"
      (OnModify.remove_from_sync_state "u1" file') = None.
Proof.
  destruct (add_then_lookup_then_delete (Demo.hook_task "pending" None None)
              (Exited 0 (Some (Some "R1"))) None "R1")
    as (Hget & Hgone & _).
  - reflexivity.
  - reflexivity.
  - discriminate.
  - split; [exact Hget | exact Hgone].
Defined.

Lemma hooks_keep_table_well_formed_witness :
  ∃ d, OnAdd.update_sync_state "u2" "R2" "20240105T000005Z"
         (Some Demo.one_mapping_doc) = Some d
       ∧ table_ok (mappings d).
Proof.
  destruct (hooks_keep_table_well_formed "u2" "R2" "20240105T000005Z"
              (Some Demo.one_mapping_doc)) as [(d & Hd & Hok & _) _].
  - split; [constructor; [reflexivity | constructor] | apply NoDup_singleton].
  - by exists d.
Defined.

(** The task the hook has just sent, seen again in the next export. *)
Lemma first_sync_after_local_create_witness :
  let task := Demo.hook_task "pending" None None in
  let d := default empty_doc
             (OnAdd.main task (Exited 0 (Some (Some "R1"))) None).2 in
  ∃ tw' state',
    sync_reminder_to_task (BE := Demo.strict) Demo.clock
      (Demo.milk (Some "2024-01-03T00:00:00Z") false)
      (Demo.one_task "pending") {| doc := d; saves := 0 |}
    = Ok (tw', state')
    ∧ (reminder_modified <$> get_by_uuid state' "u1")
      = Some "2024-01-03T00:00:00Z"
    ∧ saves state' = 1.
Proof.
  assert (H := first_sync_after_local_create (BE := Demo.strict) Demo.clock
           (Demo.hook_task "pending" None None) (Exited 0 (Some (Some "R1")))
           None
           (default empty_doc
              (OnAdd.main (Demo.hook_task "pending" None None)
                 (Exited 0 (Some (Some "R1"))) None).2)
           (Demo.milk (Some "2024-01-03T00:00:00Z") false)
           (Demo.one_task "pending") "R1" "2024-01-03T00:00:00Z"
           (Demo.milk_task "pending")
           eq_refl eq_refl ltac:(discriminate) eq_refl eq_refl eq_refl eq_refl
           ltac:(discriminate) ltac:(discriminate) eq_refl).
  cbv zeta.
  destruct (sync_reminder_to_task _ _ _ _) as [[tw' state']|e].
  - destruct H as (Hfp & Hsaves & _). exists tw', state'.
    split; [reflexivity|]. split; [exact Hfp | exact Hsaves].
  - destruct H as [Hc _]. discriminate.
Defined.

Lemma completed_run_stamps_the_state_witness :
  ∃ tw' st',
    main (BE := Demo.strict) true Demo.versioned_file
      (Demo.export_ok [Demo.milk (Some "2024-01-03T00:00:00Z") false])
      Demo.clock "2024-02-01T10:00:09" (Demo.one_task "pending")
    = Completed tw' st'
    ∧ last_sync (doc st') = Some "2024-02-01T10:00:09".
Proof.
  assert (Hout : ∃ tw' st',
            main (BE := Demo.strict) true Demo.versioned_file
              (Demo.export_ok [Demo.milk (Some "2024-01-03T00:00:00Z") false])
              Demo.clock "2024-02-01T10:00:09" (Demo.one_task "pending")
            = Completed tw' st') by (eexists _, _; reflexivity).
  destruct Hout as (tw' & st' & Hout). exists tw', st'. split; [exact Hout|].
  destruct (completed_run_stamps_the_state (BE := Demo.strict) _ _ _ _ _ _ _ _ Hout)
    as (_ & st & rs & _ & _ & _ & _ & Hl & _).
  exact Hl.
Defined.
